(** * TaxTerm: the document-field extractor, [api/extractor.py]

    A shallow embedding of [Extractor] and of the helpers nested in
    [Extractor.extract], followed by the properties of the normalisation of
    an analysis response and of the database-write loop.

    Python values are a first-order data type; a computation that can raise
    returns a [result]; the methods that talk to the blob store, the
    analysis service, the database or stdout run in a state monad over a
    [World] that records every call in order. *)

From Stdlib Require Import String Ascii List ZArith Bool Lia Arith.
From Stdlib Require Import QArith_base DecimalString.
Import ListNotations.
Local Open Scope list_scope.
Local Open Scope string_scope.
Local Close Scope Q_scope.
Set Warnings "-register-all".

(** ** Python values *)

Module Py.

(** [PDict] is a plain [dict], in insertion order.  [PObj] is an object of
    the SDK ([AnalyzeResult], [AnalyzedDocument], [DocumentField],
    [AddressValue]): a finite map from names to values that is read with
    [.get(name)] and with attribute access, an unset name reading [None].
    A number is a finite int or float, kept as the rational it denotes. *)
Inductive PyVal : Type :=
| PNone
| PBool (b : bool)
| PNum (q : Q)
| PStr (s : string)
| PList (l : list PyVal)
| PDict (d : list (string * PyVal))
| PObj (o : list (string * PyVal)).

Definition dict := list (string * PyVal).

(** Instances of [Exception].  [ServiceError] stands for whatever an
    external call (analysis service, database driver) raises.  What is not
    an [Exception] (the cancellation of an [await], an interrupt) is not
    modelled. *)
Inductive PyExc : Type :=
| AttributeError (what : string)
| KeyError (key : string)
| TypeError (what : string)
| UnboundLocalError (name : string)
| ServiceError (msg : string).

Inductive result (A : Type) : Type :=
| Ok (a : A)
| Raise (e : PyExc).
Arguments Ok {A} a.
Arguments Raise {A} e.

Definition bind {A B} (c : result A) (k : A -> result B) : result B :=
  match c with
  | Ok a => k a
  | Raise e => Raise e
  end.

Notation "x <- c ;; k" := (bind c (fun x => k))
  (at level 61, c at next level, right associativity).

(** [for x in xs: acc = body(acc, x)], leaving at the first exception. *)
Fixpoint foldM {A B} (body : B -> A -> result B) (xs : list A) (acc : B)
  : result B :=
  match xs with
  | [] => Ok acc
  | x :: xs' => acc' <- body acc x ;; foldM body xs' acc'
  end.

(** [bool(v)]. *)
Definition truthy (v : PyVal) : bool :=
  match v with
  | PNone => false
  | PBool b => b
  | PNum q => negb (Qnum q =? 0)%Z
  | PStr s => negb (s =? EmptyString)
  | PList l => match l with [] => false | _ => true end
  | PDict d => match d with [] => false | _ => true end
  | PObj o => match o with [] => false | _ => true end
  end.

(** [a or b]: [b] is evaluated only when [a] is falsy. *)
Definition por (a b : result PyVal) : result PyVal :=
  x <- a ;; if truthy x then Ok x else b.

Fixpoint lookup (k : string) (d : dict) : option PyVal :=
  match d with
  | [] => None
  | (k', v) :: d' => if k' =? k then Some v else lookup k d'
  end.

Definition keys (d : dict) : list string := map fst d.

(** [x.get(k, default)]. *)
Definition get_default (x : PyVal) (k : string) (default : PyVal)
  : result PyVal :=
  match x with
  | PDict d | PObj d =>
      Ok (match lookup k d with Some v => v | None => default end)
  | _ => Raise (AttributeError "get")
  end.

(** [x.get(k)]. *)
Definition get (x : PyVal) (k : string) : result PyVal :=
  get_default x k PNone.

(** [x.name] for a data attribute [name]. *)
Definition getattr (x : PyVal) (name : string) : result PyVal :=
  match x with
  | PObj o => Ok (match lookup name o with Some v => v | None => PNone end)
  | _ => Raise (AttributeError name)
  end.

(** [x.items()]. *)
Definition items (x : PyVal) : result dict :=
  match x with
  | PDict d | PObj d => Ok d
  | _ => Raise (AttributeError "items")
  end.

(** [x[k]] for a string key. *)
Definition subscript (x : PyVal) (k : string) : result PyVal :=
  match x with
  | PDict d | PObj d =>
      match lookup k d with Some v => Ok v | None => Raise (KeyError k) end
  | _ => Raise (TypeError "subscript")
  end.

Fixpoint chars (s : string) : list PyVal :=
  match s with
  | EmptyString => []
  | String c s' => PStr (String c EmptyString) :: chars s'
  end.

(** The elements that [for x in v] goes through. *)
Definition iter (v : PyVal) : result (list PyVal) :=
  match v with
  | PList l => Ok l
  | PDict d | PObj d => Ok (map PStr (keys d))
  | PStr s => Ok (chars s)
  | _ => Raise (TypeError "iter")
  end.

Definition enumerate {A} (l : list A) : list (nat * A) :=
  combine (seq 0 (length l)) l.

Definition isinstance_dict (v : PyVal) : bool :=
  match v with PDict _ => true | _ => false end.

Definition isinstance_list (v : PyVal) : bool :=
  match v with PList _ => true | _ => false end.

(** [d[k] = v]: an existing key keeps its place, a new one goes last. *)
Fixpoint setitem (k : string) (v : PyVal) (d : dict) : dict :=
  match d with
  | [] => [(k, v)]
  | (k', v') :: d' =>
      if k' =? k then (k', v) :: d' else (k', v') :: setitem k v d'
  end.

(** [d.update(other)]. *)
Definition update (d other : dict) : dict :=
  fold_left (fun acc kv => setitem (fst kv) (snd kv) acc) other d.

(** [x in names] for a list of string literals. *)
Definition in_names (x : string) (names : list string) : bool :=
  existsb (String.eqb x) names.

(** The decimal text of a natural number, as an f-string prints it. *)
Definition str_nat (n : nat) : string :=
  NilZero.string_of_uint (Nat.to_uint n).

End Py.
Import Py.

(** ** The nested helpers of [Extractor.extract] *)

(** The value that [extract] stores under each key. *)
Definition record (value confidence : PyVal) : PyVal :=
  PDict [("value", value); ("confidence", confidence)].

Definition extract_address_values (address_value : PyVal) : result dict :=
  house_number <- getattr address_value "house_number" ;;
  road <- getattr address_value "road" ;;
  city <- getattr address_value "city" ;;
  state <- getattr address_value "state" ;;
  postal_code <- getattr address_value "postal_code" ;;
  Ok [("house_number", house_number); ("road", road); ("city", city);
      ("state", state); ("postal_code", postal_code)].

(** [f.get('valueString') or f.get('valueNumber') or f.get('value')]. *)
Definition value_of (field : PyVal) : result PyVal :=
  por (get field "valueString")
      (por (get field "valueNumber") (get field "value")).

Definition extract_field_info (field : PyVal) (prefix : string)
  : result dict :=
  value <- value_of field ;;
  confidence <- get field "confidence" ;;
  Ok [(prefix, record value confidence)].

(** The body of [for key, value in item.get('valueObject', {}).items()]. *)
Definition array_item_field (item_prefix : string) (array_info : dict)
  (kv : string * PyVal) : result dict :=
  let (key, value) := kv in
  field_info <- extract_field_info value (item_prefix ++ "_" ++ key) ;;
  Ok (update array_info field_info).

(** The body of [for idx, item in enumerate(array)]. *)
Definition array_item (prefix : string) (array_info : dict)
  (ix : nat * PyVal) : result dict :=
  let (idx, item) := ix in
  let item_prefix := prefix ++ "_" ++ str_nat (idx + 1) in
  value_object <- get_default item "valueObject" (PDict []) ;;
  kvs <- items value_object ;;
  foldM (array_item_field item_prefix) kvs array_info.

Definition extract_array_info (array : PyVal) (prefix : string)
  : result dict :=
  elems <- iter array ;;
  foldM (array_item prefix) (enumerate elems) [].

Definition person_fields : list string :=
  ["Employee"; "Employer"; "Borrower"; "Lender"; "Payer"; "Recipient"].

Definition array_fields : list string :=
  ["AdditionalInfo"; "StateTaxInfos"; "LocalTaxInfos"; "StateTaxesWithheld"].

(** The body of
    [for component_name, component_value in address_components.items()]. *)
Definition address_component (field_name : string) (sub_field : PyVal)
  (w2_dict : dict) (cv : string * PyVal) : result dict :=
  let (component_name, component_value) := cv in
  let component_key := field_name ++ "_Address_" ++ component_name in
  confidence <- getattr sub_field "confidence" ;;
  Ok (setitem component_key (record component_value confidence) w2_dict).

(** The body of [for sub_field_name, sub_field in person_data.items()]. *)
Definition person_sub_field (field_name : string) (w2_dict : dict)
  (kv : string * PyVal) : result dict :=
  let (sub_field_name, sub_field) := kv in
  if sub_field_name =? "Address" then
    address_value <- get sub_field "valueAddress" ;;
    address_components <- extract_address_values address_value ;;
    foldM (address_component field_name sub_field) address_components w2_dict
  else
    value <- value_of sub_field ;;
    confidence <- getattr sub_field "confidence" ;;
    Ok (setitem (field_name ++ "_" ++ sub_field_name)
                (record value confidence) w2_dict).

(** The body of [for field_name, field in result.fields.items()]. *)
Definition document_field (w2_dict : dict) (kv : string * PyVal)
  : result dict :=
  let (field_name, field) := kv in
  if in_names field_name person_fields then
    person_data <- get field "valueObject" ;;
    sub_fields <- items person_data ;;
    foldM (person_sub_field field_name) sub_fields w2_dict
  else if in_names field_name array_fields then
    array <- get_default field "valueArray" (PList []) ;;
    array_data <- extract_array_info array field_name ;;
    Ok (update w2_dict array_data)
  else
    field_info <- extract_field_info field field_name ;;
    Ok (update w2_dict field_info).

(** Lines 118-150: the dictionary built for one document.  The [print]
    calls of [extract] write to stdout and nothing else; they are left
    out. *)
Definition extract_document (document : PyVal) : result dict :=
  fields <- getattr document "fields" ;;
  field_items <- items fields ;;
  foldM document_field field_items [].

(** The body of [for idx, result in enumerate(result.documents)]. *)
Definition append_document (response_list : list dict) (ix : nat * PyVal)
  : result (list dict) :=
  let (idx, document) := ix in
  w2_dict <- extract_document document ;;
  Ok (response_list ++ [w2_dict])%list.

(** Lines 115-152: the whole loop over [result.documents]. *)
Definition extract_documents (analysis : PyVal) : result (list dict) :=
  documents <- getattr analysis "documents" ;;
  docs <- iter documents ;;
  foldM append_document (enumerate docs) [].

(** ** The shape of a response and of a flattened document *)

(** [result.fields.items()], empty where the code would raise. *)
Definition document_fields (document : PyVal) : dict :=
  match getattr document "fields" with
  | Ok fields => match items fields with Ok l => l | Raise _ => [] end
  | Raise _ => []
  end.

Definition is_obj (v : PyVal) : bool :=
  match v with PObj _ => true | _ => false end.

(** A person sub-field as the SDK types it: a [DocumentField], with an
    [AddressValue] under [valueAddress] when it is the address. *)
Definition typed_sub_field (kv : string * PyVal) : bool :=
  if fst kv =? "Address" then
    match snd kv with
    | PObj o =>
        match lookup "valueAddress" o with Some (PObj _) => true | _ => false end
    | _ => false
    end
  else is_obj (snd kv).

Definition typed_person (field : PyVal) : bool :=
  match field with
  | PObj o =>
      match lookup "valueObject" o with
      | Some (PDict sub_fields) => forallb typed_sub_field sub_fields
      | _ => false
      end
  | _ => false
  end.

Definition typed_item (item : PyVal) : bool :=
  match item with
  | PObj o =>
      match lookup "valueObject" o with
      | None => true
      | Some (PDict kvs) => forallb (fun kv => is_obj (snd kv)) kvs
      | Some _ => false
      end
  | _ => false
  end.

Definition typed_array (field : PyVal) : bool :=
  match field with
  | PObj o =>
      match lookup "valueArray" o with
      | None => true
      | Some (PList elems) => forallb typed_item elems
      | Some _ => false
      end
  | _ => false
  end.

Definition typed_field (kv : string * PyVal) : bool :=
  if in_names (fst kv) person_fields then typed_person (snd kv)
  else if in_names (fst kv) array_fields then typed_array (snd kv)
  else is_obj (snd kv).

(** An [AnalyzedDocument] as the SDK types it: [fields] is a dict of
    [DocumentField]; a person field carries its [valueObject]. *)
Definition typed_document (document : PyVal) : bool :=
  match document with
  | PObj o =>
      match lookup "fields" o with
      | Some (PDict fields) => forallb typed_field fields
      | _ => false
      end
  | _ => false
  end.

(** Where an entry of a flattened document comes from: what the field
    [field_name] of the document contributes, each time a dictionary with
    the two entries ['value'] and ['confidence']. *)
Inductive field_entry (field_name : string) (field : PyVal)
  : string -> PyVal -> Prop :=
| entry_plain value confidence :
    in_names field_name person_fields = false ->
    in_names field_name array_fields = false ->
    value_of field = Ok value ->
    get field "confidence" = Ok confidence ->
    extract_field_info field field_name
      = Ok [(field_name,
             PDict [("value", value); ("confidence", confidence)])] ->
    field_entry field_name field field_name (PDict [("value", value); ("confidence", confidence)])
| entry_person person_data sub_fields sub_field_name sub_field value
               confidence :
    in_names field_name person_fields = true ->
    get field "valueObject" = Ok person_data ->
    items person_data = Ok sub_fields ->
    In (sub_field_name, sub_field) sub_fields ->
    sub_field_name <> "Address" ->
    value_of sub_field = Ok value ->
    getattr sub_field "confidence" = Ok confidence ->
    field_entry field_name field (field_name ++ "_" ++ sub_field_name)
                (PDict [("value", value); ("confidence", confidence)])
| entry_address person_data sub_fields sub_field address_value components
                component_name component_value confidence :
    in_names field_name person_fields = true ->
    get field "valueObject" = Ok person_data ->
    items person_data = Ok sub_fields ->
    In ("Address", sub_field) sub_fields ->
    get sub_field "valueAddress" = Ok address_value ->
    extract_address_values address_value = Ok components ->
    In (component_name, component_value) components ->
    getattr sub_field "confidence" = Ok confidence ->
    field_entry field_name field
                (field_name ++ "_Address_" ++ component_name)
                (PDict [("value", component_value); ("confidence", confidence)])
| entry_array array elems i item value_object kvs key field_ value
              confidence :
    in_names field_name person_fields = false ->
    in_names field_name array_fields = true ->
    get_default field "valueArray" (PList []) = Ok array ->
    iter array = Ok elems ->
    nth_error elems i = Some item ->
    get_default item "valueObject" (PDict []) = Ok value_object ->
    items value_object = Ok kvs ->
    In (key, field_) kvs ->
    value_of field_ = Ok value ->
    get field_ "confidence" = Ok confidence ->
    field_entry field_name field
                (field_name ++ "_" ++ str_nat (i + 1) ++ "_" ++ key)
                (PDict [("value", value); ("confidence", confidence)]).

Definition flat_entry (fields : dict) (k : string) (v : PyVal) : Prop :=
  exists field_name field,
    In (field_name, field) fields /\ field_entry field_name field k v.

(** The five component names of [extract_address_values]. *)
Definition address_component_names : list string :=
  ["house_number"; "road"; "city"; "state"; "postal_code"].

(** ** State and effects *)

(** [azure_credentials]: the constants that [extractor.py] reads. *)
Record Credentials : Type := {
  CONNECTION_STRING : string;
  KEY : string;
  FORM_RECOGNIZER_ENDPOINT_PREBUILT : string;
  FORM_RECOGNIZER_KEY_PREBUILT : string;
  FORM_RECOGNIZER_ENDPOINT_CUSTOM : string;
  FORM_RECOGNIZER_KEY_CUSTOM_K1 : string
}.

Record BlobServiceClient : Type := { account_name : string }.

Record ContainerClient : Type := { container_name : string }.

(** The two attributes that [Extractor.__init__] sets. *)
Record Extractor : Type := {
  blob_service_client : BlobServiceClient;
  blob_container_client : ContainerClient
}.

(** [DocumentIntelligenceClient(endpoint=..., credential=AzureKeyCredential(key))]. *)
Record DocumentIntelligenceClient : Type := {
  endpoint : string;
  credential : string
}.

(** [BlobSasPermissions(...)]: a flag that the call does not pass is off. *)
Record BlobSasPermissions : Type := {
  read : bool;
  add : bool;
  create : bool;
  write : bool;
  delete : bool;
  delete_previous_version : bool;
  tag : bool
}.

Definition BlobSasPermissions_read_True : BlobSasPermissions :=
  {| read := true; add := false; create := false; write := false;
     delete := false; delete_previous_version := false; tag := false |}.

(** A [datetime] is a number of microseconds since the epoch. *)
Definition datetime := Z.

Definition timedelta_hours (h : Z) : Z := (h * 3600 * 1000000)%Z.

(** The keyword arguments of [generate_blob_sas]. *)
Record SasRequest : Type := {
  sas_account_name : string;
  sas_container_name : string;
  sas_blob_name : string;
  sas_account_key : string;
  sas_permission : BlobSasPermissions;
  sas_expiry : datetime
}.

(** The keyword arguments of [database.post2postgres_extract]. *)
Record Row : Type := {
  client_id : PyVal;
  doc_url : PyVal;
  doc_name : PyVal;
  doc_status : string;
  doc_type : PyVal;
  field_name : string;
  field_value : PyVal;
  confidence : PyVal;
  access_id : PyVal
}.

(** What the program does to the outside, in the order it does it; a call
    to the database is recorded with its outcome. *)
Inductive Event : Type :=
| GenerateSas (request : SasRequest)
| Analyze (client : DocumentIntelligenceClient) (model_id url_source : string)
| NewDatabase (client_id blob_sas_url : PyVal)
| Insert (row : Row) (outcome : result PyVal)
| Close (outcome : result unit)
| Print (line : string).

(** The module [azure_credentials], the [Extractor] instance, the reading
    of the UTC clock and the calls made so far. *)
Record World : Type := {
  azure_credentials : Credentials;
  self : Extractor;
  utcnow : datetime;
  trace : list Event
}.

Definition emit (e : Event) (w : World) : World :=
  {| azure_credentials := azure_credentials w; self := self w;
     utcnow := utcnow w; trace := (trace w ++ [e])%list |}.

(** A computation over a state [S] that returns or raises; the state
    reached is kept in both cases. *)
Definition M (S A : Type) : Type := S -> S * result A.

Module MNotations.
Definition mret {S A} (a : A) : M S A := fun s => (s, Ok a).

Definition mraise {S A} (e : PyExc) : M S A := fun s => (s, Raise e).

Definition mbind {S A B} (c : M S A) (k : A -> M S B) : M S B :=
  fun s =>
    match c s with
    | (s', Ok a) => k a s'
    | (s', Raise e) => (s', Raise e)
    end.

Definition lift {S A} (r : result A) : M S A := fun s => (s, r).

Notation "x <~ c ;; k" := (mbind c (fun x => k))
  (at level 61, c at next level, right associativity).
Notation "c ;;; k" := (mbind c (fun _ => k))
  (at level 61, right associativity).
End MNotations.
Import MNotations.

(** [for x in xs: body(x)]. *)
Fixpoint for_each {S A} (body : A -> M S unit) (xs : list A) : M S unit :=
  match xs with
  | [] => mret tt
  | x :: xs' => body x ;;; for_each body xs'
  end.

(** [try: c  except Exception as e: handler(e)]. *)
Definition try_except {S A} (c : M S A) (handler : PyExc -> M S A) : M S A :=
  fun s =>
    match c s with
    | (s', Ok a) => (s', Ok a)
    | (s', Raise e) => handler e s'
    end.

(** [try: c  finally: f]: [f] always runs; what it raises replaces the
    outcome of [c]. *)
Definition try_finally {S A} (c : M S A) (f : M S unit) : M S A :=
  fun s =>
    match c s with
    | (s', r) =>
        match f s' with
        | (s'', Ok _) => (s'', r)
        | (s'', Raise e) => (s'', Raise e)
        end
    end.

(** [x.__dict__]: only an object has one. *)
Definition dunder_dict (x : PyVal) : result PyVal :=
  match x with
  | PObj o => Ok (PDict o)
  | _ => Raise (AttributeError "__dict__")
  end.

(** ** A small world to run the methods in *)

Module Sample.

(** A store that keeps the rows it is given and refuses the field
    [Rejected]; the id of a row is its position. *)
Definition DB : Type := list Row.

Definition Database (client_id blob_sas_url : PyVal) : DB := [].

Definition post2postgres_extract (row : Row) (db : DB) : DB * result PyVal :=
  if field_name row =? "Rejected" then
    (db, Raise (ServiceError "insert refused"))
  else
    ((db ++ [row])%list, Ok (PNum (Qmake (Z.of_nat (S (length db))) 1))).

(** A store that takes every row. *)
Definition post_any (row : Row) (db : DB) : DB * result PyVal :=
  ((db ++ [row])%list, Ok (PNum (Qmake (Z.of_nat (S (length db))) 1))).

Definition close (db : DB) : DB * result unit := (db, Ok tt).

Definition str (v : PyVal) : string :=
  match v with
  | PNone => "None"
  | PBool true => "True"
  | PBool false => "False"
  | PNum (Qmake n 1) => NilZero.string_of_int (Z.to_int n)
  | PStr s => s
  | _ => "<object>"
  end.

Definition str_exc (e : PyExc) : string :=
  match e with
  | AttributeError what => what
  | KeyError key => "'" ++ key ++ "'"
  | TypeError what => what
  | UnboundLocalError name => name
  | ServiceError msg => msg
  end.

Definition json_dumps (v : PyVal) : result string :=
  Raise (TypeError "json.dumps").

Definition generate_blob_sas (request : SasRequest) : string :=
  "sig=" ++ sas_account_key request.

Definition world : World :=
  {| azure_credentials :=
       {| CONNECTION_STRING := "AccountName=taxterm";
          KEY := "k1";
          FORM_RECOGNIZER_ENDPOINT_PREBUILT := "https://prebuilt";
          FORM_RECOGNIZER_KEY_PREBUILT := "p";
          FORM_RECOGNIZER_ENDPOINT_CUSTOM := "https://custom";
          FORM_RECOGNIZER_KEY_CUSTOM_K1 := "c" |};
     self := {| blob_service_client := {| account_name := "taxterm" |};
                blob_container_client := {| container_name := "uploads" |} |};
     utcnow := 1700000000000000%Z;
     trace := [] |}.

(** The same world with another account key. *)
Definition world_rekeyed : World :=
  {| azure_credentials :=
       {| CONNECTION_STRING := "AccountName=taxterm";
          KEY := "k2";
          FORM_RECOGNIZER_ENDPOINT_PREBUILT := "https://prebuilt";
          FORM_RECOGNIZER_KEY_PREBUILT := "p";
          FORM_RECOGNIZER_ENDPOINT_CUSTOM := "https://custom";
          FORM_RECOGNIZER_KEY_CUSTOM_K1 := "c" |};
     self := self world;
     utcnow := utcnow world;
     trace := [] |}.

Definition field_of (value : PyVal) (confidence : Q) : PyVal :=
  PObj [("valueString", value); ("confidence", PNum confidence)].

(** A W-2 with a person, an array and a plain field. *)
Definition document : PyVal :=
  PObj
    [("fields",
      PDict
        [("Employee",
          PObj
            [("valueObject",
              PDict
                [("Name", field_of (PStr "Ann Lee") (Qmake 9 10));
                 ("Address",
                  PObj [("valueAddress",
                         PObj [("house_number", PStr "12");
                               ("road", PStr "Elm St");
                               ("city", PStr "Reno");
                               ("state", PStr "NV")]);
                        ("confidence", PNum (Qmake 8 10))])])]);
         ("StateTaxInfos",
          PObj
            [("valueArray",
              PList
                [PObj [("valueObject",
                        PDict [("State", field_of (PStr "NV") (Qmake 7 10))])]])]);
         ("WagesTipsAndOtherCompensation",
          PObj [("valueNumber", PNum (Qmake 50000 1));
                ("confidence", PNum (Qmake 6 10))])])].

Definition analyze_result : PyVal :=
  PObj [("documents", PList [document; document])].

Definition begin_analyze_document (client : DocumentIntelligenceClient)
  (model_id url_source : string) : result PyVal :=
  Ok analyze_result.

Definition extractor_model_mapping : list (string * string) :=
  [("W2", "prebuilt-tax.us.w2"); ("K1-1065", "k1-custom")].

(** A field whose [valueString] is empty and whose [valueNumber] is 0. *)
Definition falsy_field : PyVal :=
  PObj [("valueString", PStr EmptyString); ("valueNumber", PNum (Qmake 0 1));
        ("confidence", PNum (Qmake 5 10))].

(** A field whose [valueString] is empty and whose [valueNumber] is 7. *)
Definition seven_field : PyVal :=
  PObj [("valueString", PStr EmptyString); ("valueNumber", PNum (Qmake 7 1));
        ("confidence", PNum (Qmake 5 10))].

Definition entry (value : string) : PyVal :=
  PDict [("value", PStr value); ("confidence", PNum (Qmake 9 10))].

(** Two dictionaries; the second field of the first one is refused by
    [post2postgres_extract]. *)
Definition extracted_values : list dict :=
  [[("Employee_Name", entry "Ann Lee"); ("Rejected", entry "x");
    ("Employer_Name", entry "Acme")];
   [("Payer_Name", entry "Bank")]].

(** A dictionary whose first record lacks the key ['value']. *)
Definition keyless_values : list dict :=
  [[("Box1", PDict []); ("Box2", entry "7")]].

(** Two dictionaries that any store takes: a record, a bare value. *)
Definition plain_values : list dict :=
  [[("Employee_Name", entry "Ann Lee"); ("Note", PStr "scanned")];
   [("Payer_Name", entry "Bank")]].

(** The row that [update_database] builds for a record of [entry], called
    with the identifiers used below. *)
Definition row (name value : string) : Row :=
  {| client_id := PStr "c1";
     doc_url := PStr "https://u";
     doc_name := PStr "w2.pdf";
     doc_status := "extracted";
     doc_type := PStr "W2";
     field_name := name;
     field_value := PStr value;
     confidence := PNum (Qmake 9 10);
     access_id := PNum (Qmake 7 1) |}.

(** What [update_database] does on [extracted_values]. *)
Definition failed_events : list Event :=
  [NewDatabase (PStr "c1") (PStr "https://u");
   Insert (row "Employee_Name" "Ann Lee") (Ok (PNum (Qmake 1 1)));
   Print "Last inserted ID for extraction: 1";
   Insert (row "Rejected" "x") (Raise (ServiceError "insert refused"));
   Print "An error occurred while inserting field 'Rejected': insert refused";
   Close (Ok tt)].

(** An [Address] sub-field of the person [Employee], and the five entries
    it gives. *)
Definition address_sub_field : PyVal :=
  PObj [("valueAddress", PObj [("house_number", PStr "12");
                               ("road", PStr "Elm St")]);
        ("confidence", PNum (Qmake 8 10))].

Definition address_entries : dict :=
  [("Employee_Address_house_number",
    PDict [("value", PStr "12"); ("confidence", PNum (Qmake 8 10))]);
   ("Employee_Address_road",
    PDict [("value", PStr "Elm St"); ("confidence", PNum (Qmake 8 10))]);
   ("Employee_Address_city",
    PDict [("value", PNone); ("confidence", PNum (Qmake 8 10))]);
   ("Employee_Address_state",
    PDict [("value", PNone); ("confidence", PNum (Qmake 8 10))]);
   ("Employee_Address_postal_code",
    PDict [("value", PNone); ("confidence", PNum (Qmake 8 10))])].

(** An array field whose only item holds no [valueObject]. *)
Definition hollow_array_field : PyVal :=
  PObj [("valueArray", PList [PObj [("confidence", PNum (Qmake 1 2))]])].

(** A document with two plain fields, and its flattening. *)
Definition plain_document : PyVal :=
  PObj [("fields",
         PDict [("Box1", field_of (PStr "12.50") (Qmake 9 10));
                ("Box2", PObj [("valueNumber", PNum (Qmake 3 1));
                               ("confidence", PNum (Qmake 7 10))])])].

Definition plain_flat : dict :=
  [("Box1", PDict [("value", PStr "12.50"); ("confidence", PNum (Qmake 9 10))]);
   ("Box2", PDict [("value", PNum (Qmake 3 1));
                   ("confidence", PNum (Qmake 7 10))])].

(** [plain_flat] after a later field named [Box1] is handled. *)
Definition overwritten_flat : dict :=
  [("Box1", PDict [("value", PStr "NV"); ("confidence", PNum (Qmake 7 10))]);
   ("Box2", PDict [("value", PNum (Qmake 3 1));
                   ("confidence", PNum (Qmake 7 10))])].

(** A dictionary whose second record lacks the key ['value']. *)
Definition half_keyed_values : list dict :=
  [[("Box0", entry "1"); ("Box1", PDict []); ("Box2", entry "7")]].

End Sample.

(** ** [class Extractor] *)

Section ExtractorMethods.

(** What the imported modules provide.  [DB] is the state behind a
    [Database] object, whose constructor is taken to return; an insert
    returns the new row's id or raises, [close] returns or raises.
    [begin_analyze_document] stands for the request and the wait for its
    result (lines 82-87). *)
Variable DB : Type.
Variable Database : PyVal -> PyVal -> DB.
Variable post2postgres_extract : Row -> DB -> DB * result PyVal.
Variable close : DB -> DB * result unit.
Variable str : PyVal -> string.
Variable str_exc : PyExc -> string.
Variable json_dumps : PyVal -> result string.
Variable from_connection_string : string -> BlobServiceClient.
Variable generate_blob_sas : SasRequest -> string.
Variable begin_analyze_document :
  DocumentIntelligenceClient -> string -> string -> result PyVal.
Variable extractor_model_mapping : list (string * string).

(** [extractor_model_mapping.get(form_type, 'unsorted')]. *)
Fixpoint mapping_get (m : list (string * string)) (k default : string)
  : string :=
  match m with
  | [] => default
  | (k', v) :: m' => if k' =? k then v else mapping_get m' k default
  end.

(** [Extractor.__init__]. *)
Definition Extractor_init (credentials : Credentials)
  (container_name : string) : Extractor :=
  {| blob_service_client :=
       from_connection_string (CONNECTION_STRING credentials);
     blob_container_client := {| container_name := container_name |} |}.

(** *** [update_database] *)

(** The local variables of [update_database] that outlive an iteration,
    next to the world: [field_name] is unbound until the inner [for]
    binds it. *)
Record Frame : Type := {
  world : World;
  database : DB;
  loc_field_name : option string
}.

Definition log (e : Event) : M Frame unit :=
  fun fr =>
    ({| world := emit e (world fr); database := database fr;
        loc_field_name := loc_field_name fr |}, Ok tt).

Definition print (line : string) : M Frame unit := log (Print line).

Definition bind_field_name (name : string) : M Frame unit :=
  fun fr =>
    ({| world := world fr; database := database fr;
        loc_field_name := Some name |}, Ok tt).

(** [await database.post2postgres_extract(...)]. *)
Definition await_post2postgres_extract (row : Row) : M Frame PyVal :=
  fun fr =>
    let (db', r) := post2postgres_extract row (database fr) in
    ({| world := emit (Insert row r) (world fr); database := db';
        loc_field_name := loc_field_name fr |}, r).

(** [await database.close()]. *)
Definition await_close : M Frame unit :=
  fun fr =>
    let (db', r) := close (database fr) in
    ({| world := emit (Close r) (world fr); database := db';
        loc_field_name := loc_field_name fr |}, r).

(** Lines 28-33: [field_value] and [confidence]. *)
Definition value_and_confidence (field_data : PyVal)
  : result (PyVal * PyVal) :=
  if isinstance_dict field_data then
    value <- subscript field_data "value" ;;
    confidence <- subscript field_data "confidence" ;;
    Ok (PStr (str value), confidence)
  else
    Ok (PStr (str field_data), PNone).

(** Lines 36-37. *)
Definition convert_custom_type (field_value : PyVal) : result PyVal :=
  if isinstance_list field_value then
    d <- dunder_dict field_value ;;
    s <- json_dumps d ;;
    Ok (PStr s)
  else
    Ok field_value.

(** The body of [for field_name, field_data in extracted_value.items()]. *)
Definition insert_field (client_id blob_sas_url doc_name form_type
                         access_id : PyVal) (kv : string * PyVal)
  : M Frame unit :=
  let (field_name, field_data) := kv in
  bind_field_name field_name ;;;
  vc <~ lift (value_and_confidence field_data) ;;
  field_value <~ lift (convert_custom_type (fst vc)) ;;
  last_inserted_id <~ await_post2postgres_extract
    {| client_id := client_id;
       doc_url := blob_sas_url;
       doc_name := doc_name;
       doc_status := "extracted";
       doc_type := form_type;
       field_name := field_name;
       field_value := field_value;
       confidence := snd vc;
       access_id := access_id |} ;;
  print ("Last inserted ID for extraction: " ++ str last_inserted_id).

(** The [except Exception as e] clause: it reads [field_name]. *)
Definition on_exception (e : PyExc) : M Frame unit :=
  fun fr =>
    match loc_field_name fr with
    | Some field_name =>
        print ("An error occurred while inserting field '" ++ field_name
               ++ "': " ++ str_exc e) fr
    | None => (fr, Raise (UnboundLocalError "field_name"))
    end.

Definition update_database_body (client_id blob_sas_url doc_name form_type
                                 : PyVal)
  (extracted_values : list dict) (access_id : PyVal) : M Frame unit :=
  try_finally
    (try_except
       (for_each
          (fun extracted_value =>
             for_each
               (insert_field client_id blob_sas_url doc_name form_type
                             access_id)
               extracted_value)
          extracted_values)
       on_exception)
    await_close.

Definition update_database (client_id blob_sas_url doc_name form_type
                            : PyVal)
  (extracted_values : list dict) (access_id : PyVal) : M World unit :=
  fun w =>
    let fr :=
      {| world := emit (NewDatabase client_id blob_sas_url) w;
         database := Database client_id blob_sas_url;
         loc_field_name := None |} in
    let (fr', r) :=
      update_database_body client_id blob_sas_url doc_name form_type
                           extracted_values access_id fr in
    (world fr', r).

(** [update_database] for whatever value [extracted_values] holds: line 26
    iterates over it and line 27 calls [.items()] on each element as its
    turn comes, both inside the [try].  On a list of dictionaries this is
    [update_database] above. *)
Definition update_database_any_body (client_id blob_sas_url doc_name
                                     form_type extracted_values
                                     access_id : PyVal) : M Frame unit :=
  try_finally
    (try_except
       (elements <~ lift (iter extracted_values) ;;
        for_each
          (fun extracted_value =>
             pairs <~ lift (items extracted_value) ;;
             for_each
               (insert_field client_id blob_sas_url doc_name form_type
                             access_id)
               pairs)
          elements)
       on_exception)
    await_close.

Definition update_database_any (client_id blob_sas_url doc_name form_type
                                extracted_values access_id : PyVal)
  : M World unit :=
  fun w =>
    let fr :=
      {| world := emit (NewDatabase client_id blob_sas_url) w;
         database := Database client_id blob_sas_url;
         loc_field_name := None |} in
    let (fr', r) :=
      update_database_any_body client_id blob_sas_url doc_name form_type
                               extracted_values access_id fr in
    (world fr', r).

(** *** [get_document_intelligence_client] *)

Definition get_document_intelligence_client (credentials : Credentials)
  (form_type : string) : DocumentIntelligenceClient :=
  if negb (form_type =? "K1-1065") then
    {| endpoint := FORM_RECOGNIZER_ENDPOINT_PREBUILT credentials;
       credential := FORM_RECOGNIZER_KEY_PREBUILT credentials |}
  else
    {| endpoint := FORM_RECOGNIZER_ENDPOINT_CUSTOM credentials;
       credential := FORM_RECOGNIZER_KEY_CUSTOM_K1 credentials |}.

(** *** [extract] *)

(** Lines 69-76: the arguments given to [generate_blob_sas]. *)
Definition sas_request (w : World) (blob_location : string) : SasRequest :=
  {| sas_account_name := account_name (blob_service_client (self w));
     sas_container_name := container_name (blob_container_client (self w));
     sas_blob_name := blob_location;
     sas_account_key := KEY (azure_credentials w);
     sas_permission := BlobSasPermissions_read_True;
     sas_expiry := (utcnow w + timedelta_hours 1)%Z |}.

Definition extract (client_id blob_name form_type : string)
  : M World (list dict * string) :=
  fun w =>
    let document_intelligence_client :=
      get_document_intelligence_client (azure_credentials w) form_type in
    let blob_location := client_id ++ "/" ++ blob_name in
    let request := sas_request w blob_location in
    let sas_token := generate_blob_sas request in
    let w1 := emit (GenerateSas request) w in
    let account := account_name (blob_service_client (self w1)) in
    let container := container_name (blob_container_client (self w1)) in
    let blob_sas_url :=
      "https://" ++ account ++ ".blob.core.windows.net/" ++ container
      ++ "/" ++ blob_location ++ "?" ++ sas_token in
    let doc_url :=
      "https://" ++ account ++ ".blob.core.windows.net/" ++ container
      ++ "/" ++ blob_location in
    let model_id := mapping_get extractor_model_mapping form_type "unsorted" in
    let w2 :=
      emit (Analyze document_intelligence_client model_id blob_sas_url) w1 in
    match begin_analyze_document document_intelligence_client model_id
                                 blob_sas_url with
    | Raise e => (w2, Raise e)
    | Ok result =>
        match extract_documents result with
        | Raise e => (w2, Raise e)
        | Ok response_list => (w2, Ok (response_list, doc_url))
        end
    end.

(** ** Reading a run *)

(** The world after the events [evs], in order. *)
Definition emits (evs : list Event) (w : World) : World :=
  fold_left (fun w e => emit e w) evs w.

(** The rows of the [Insert] events of a trace, in order. *)
Fixpoint inserted_rows (t : list Event) : list Row :=
  match t with
  | [] => []
  | Insert row _ :: t' => row :: inserted_rows t'
  | _ :: t' => inserted_rows t'
  end.

(** The keyword arguments that [insert_field] builds for one pair
    (lines 28-48). *)
Definition insert_row (client_id blob_sas_url doc_name form_type
                       access_id : PyVal) (kv : string * PyVal)
  : result Row :=
  vc <- value_and_confidence (snd kv) ;;
  field_value <- convert_custom_type (fst vc) ;;
  Ok {| client_id := client_id;
        doc_url := blob_sas_url;
        doc_name := doc_name;
        doc_status := "extracted";
        doc_type := form_type;
        field_name := fst kv;
        field_value := field_value;
        confidence := snd vc;
        access_id := access_id |}.

(** What a successful insert leaves in the trace (lines 39-50). *)
Definition ok_events (ri : Row * PyVal) : list Event :=
  [Insert (fst ri) (Ok (snd ri));
   Print ("Last inserted ID for extraction: " ++ str (snd ri))].

(** The line that the [except] clause prints (line 52). *)
Definition error_line (field_name : string) (e : PyExc) : string :=
  "An error occurred while inserting field '" ++ field_name ++ "': "
  ++ str_exc e.

(** How the loop of [update_database] ends on the pairs it has not yet
    inserted, and what that leaves in the trace before [close]. *)
Inductive loop_end (client_id blob_sas_url doc_name form_type
                    access_id : PyVal)
  : list (string * PyVal) -> list Event -> Prop :=
| end_all_inserted :
    loop_end client_id blob_sas_url doc_name form_type access_id [] []
| end_row_raised kv rest e :
    insert_row client_id blob_sas_url doc_name form_type access_id kv
    = Raise e ->
    loop_end client_id blob_sas_url doc_name form_type access_id
             (kv :: rest) [Print (error_line (fst kv) e)]
| end_insert_raised kv rest row db e :
    insert_row client_id blob_sas_url doc_name form_type access_id kv
    = Ok row ->
    snd (post2postgres_extract row db) = Raise e ->
    loop_end client_id blob_sas_url doc_name form_type access_id
             (kv :: rest)
             [Insert row (Raise e); Print (error_line (fst kv) e)].

(** The value whose [str()] the specification puts in [field_value]. *)
Definition claimed_value (field_data : PyVal) : PyVal :=
  match field_data with
  | PDict d => match lookup "value" d with Some v => v | None => PNone end
  | _ => field_data
  end.

Definition claimed_confidence (field_data : PyVal) : PyVal :=
  match field_data with
  | PDict d => match lookup "confidence" d with Some c => c | None => PNone end
  | _ => PNone
  end.

(** The row that the specification describes for one pair of a
    dictionary. *)
Definition claimed_row (client_id blob_sas_url doc_name form_type
                        access_id : PyVal) (kv : string * PyVal) : Row :=
  {| client_id := client_id;
     doc_url := blob_sas_url;
     doc_name := doc_name;
     doc_status := "extracted";
     doc_type := form_type;
     field_name := fst kv;
     field_value := PStr (str (claimed_value (snd kv)));
     confidence := claimed_confidence (snd kv);
     access_id := access_id |}.

(** A dict-valued [field_data] has both keys that lines 29-30 read. *)
Definition has_value_and_confidence (field_data : PyVal) : bool :=
  match field_data with
  | PDict d =>
      match lookup "value" d, lookup "confidence" d with
      | Some _, Some _ => true
      | _, _ => false
      end
  | _ => true
  end.

(** Whether the character [c] occurs in [s]. *)
Fixpoint has_char (c : ascii) (s : string) : bool :=
  match s with
  | EmptyString => false
  | String x s' => Ascii.eqb x c || has_char c s'
  end.

(** The URL of line 79. *)
Definition blob_url (account container client_id blob_name : string)
  : string :=
  "https://" ++ account ++ ".blob.core.windows.net/" ++ container ++ "/"
  ++ client_id ++ "/" ++ blob_name.

(** The URL of line 78, with the token that [extract] generates. *)
Definition sas_url (client_id blob_name : string) (w : World) : string :=
  blob_url (account_name (blob_service_client (self w)))
           (container_name (blob_container_client (self w)))
           client_id blob_name
  ++ "?" ++ generate_blob_sas (sas_request w (client_id ++ "/" ++ blob_name)).

(** What the analysis service answers to the request of [extract]
    (lines 82-87). *)
Definition analysis (client_id blob_name form_type : string) (w : World)
  : result PyVal :=
  begin_analyze_document
    (get_document_intelligence_client (azure_credentials w) form_type)
    (mapping_get extractor_model_mapping form_type "unsorted")
    (sas_url client_id blob_name w).

(** [result.documents], as the loop of line 116 goes through it; empty
    where the code would raise. *)
Definition analysis_documents (result : PyVal) : list PyVal :=
  match getattr result "documents" with
  | Ok documents => match iter documents with Ok l => l | Raise _ => [] end
  | Raise _ => []
  end.

(** The longest prefix of [l] whose elements all pass [p]. *)
Fixpoint take_while {A} (p : A -> bool) (l : list A) : list A :=
  match l with
  | [] => []
  | x :: l' => if p x then x :: take_while p l' else []
  end.

(** The pair can be turned into a row: lines 28-33 do not raise on it. *)
Definition keyed (kv : string * PyVal) : bool :=
  has_value_and_confidence (snd kv).

End ExtractorMethods.

Arguments world {DB} _.
Arguments database {DB} _.
Arguments loc_field_name {DB} _.

(** ** Dictionaries *)

Lemma In_setitem k v k0 v0 (d : dict) :
  In (k, v) (setitem k0 v0 d) -> (k, v) = (k0, v0) \/ In (k, v) d.
Proof.
  induction d as [|[k' v'] d IH]; simpl.
  - intros [H|[]]; left; congruence.
  - destruct (String.eqb_spec k' k0) as [->|Hne]; simpl.
    + intros [H|H]; [left; congruence | right; right; exact H].
    + intros [H|H]; [right; left; exact H|].
      destruct (IH H) as [E|E]; [left; exact E | right; right; exact E].
Qed.

Lemma keys_setitem k k0 v0 (d : dict) :
  In k (keys (setitem k0 v0 d)) <-> k = k0 \/ In k (keys d).
Proof.
  induction d as [|[k' v'] d IH]; simpl.
  - intuition congruence.
  - destruct (String.eqb_spec k' k0) as [->|Hne]; simpl.
    + intuition congruence.
    + rewrite IH. intuition congruence.
Qed.

Lemma NoDup_setitem k0 v0 (d : dict) :
  NoDup (keys d) -> NoDup (keys (setitem k0 v0 d)).
Proof.
  induction d as [|[k' v'] d IH]; simpl; intros Hnd.
  - constructor; [intros [] | constructor].
  - inversion Hnd as [|? ? Hnotin Hnd']; subst.
    destruct (String.eqb_spec k' k0) as [->|Hne]; simpl.
    + constructor; assumption.
    + constructor; [|apply IH; exact Hnd'].
      intros Hin. apply keys_setitem in Hin. destruct Hin as [->|Hin].
      * apply Hne; reflexivity.
      * apply Hnotin; exact Hin.
Qed.

Lemma update_cons (d : dict) kv other :
  update d (kv :: other) = update (setitem (fst kv) (snd kv) d) other.
Proof. reflexivity. Qed.

Lemma update_app (d a b : dict) : update (update d a) b = update d (a ++ b)%list.
Proof. unfold update. rewrite fold_left_app. reflexivity. Qed.

Lemma In_update k v (other d : dict) :
  In (k, v) (update d other) -> In (k, v) other \/ In (k, v) d.
Proof.
  revert d. induction other as [|[k0 v0] other IH]; intros d.
  - intros H; right; exact H.
  - rewrite update_cons. cbn [fst snd In]. intros H.
    destruct (IH _ H) as [Hin|Hin]; [left; right; exact Hin|].
    apply In_setitem in Hin. destruct Hin as [E|Hin].
    + left; left; symmetry; exact E.
    + right; exact Hin.
Qed.

Lemma keys_update k (other d : dict) :
  In k (keys (update d other)) <-> In k (keys other) \/ In k (keys d).
Proof.
  revert d. induction other as [|[k0 v0] other IH]; intros d.
  - simpl. intuition.
  - rewrite update_cons, IH. simpl. rewrite keys_setitem.
    intuition congruence.
Qed.

Lemma NoDup_update (other d : dict) :
  NoDup (keys d) -> NoDup (keys (update d other)).
Proof.
  revert d. induction other as [|[k0 v0] other IH]; intros d Hnd.
  - exact Hnd.
  - rewrite update_cons. apply IH, NoDup_setitem, Hnd.
Qed.

Lemma In_keys k v (d : dict) : In (k, v) d -> In k (keys d).
Proof. intros H. apply (in_map fst) in H. exact H. Qed.

Lemma In_enumerate {A} (l : list A) i x :
  In (i, x) (enumerate l) <-> nth_error l i = Some x.
Proof.
  unfold enumerate.
  assert (G : forall start,
             In (i, x) (combine (seq start (length l)) l)
             <-> start <= i /\ nth_error l (i - start) = Some x).
  { induction l as [|a l IH]; intros start; simpl.
    - split; [intros [] | intros [_ H]].
      destruct (i - start); discriminate.
    - rewrite IH. split.
      + intros [E|[Hle Hn]].
        * inversion E; subst. rewrite Nat.sub_diag. split; [lia|reflexivity].
        * split; [lia|]. replace (i - start) with (S (i - S start)) by lia.
          exact Hn.
      + intros [Hle Hn]. destruct (Nat.eq_dec start i) as [->|Hne].
        * rewrite Nat.sub_diag in Hn. simpl in Hn. left; congruence.
        * right. split; [lia|].
          replace (i - start) with (S (i - S start)) in Hn by lia.
          exact Hn. }
  rewrite G, Nat.sub_0_r. intuition lia.
Qed.

(** ** Loops that only add entries *)

Lemma foldM_Ok_cons {A B} (body : B -> A -> result B) x xs acc acc' :
  foldM body (x :: xs) acc = Ok acc' ->
  exists acc1, body acc x = Ok acc1 /\ foldM body xs acc1 = Ok acc'.
Proof.
  simpl. destruct (body acc x) as [acc1|e]; simpl; [|discriminate].
  intros H. exists acc1. split; [reflexivity | exact H].
Qed.

(** When each turn updates the dictionary with entries related to the
    element by [E], the loop updates it with all of them in order. *)
Lemma foldM_update {A} (body : dict -> A -> result dict)
      (E : A -> dict -> Prop) (xs : list A) :
  (forall acc x acc', In x xs -> body acc x = Ok acc' ->
                      exists es, acc' = update acc es /\ E x es) ->
  forall acc acc', foldM body xs acc = Ok acc' ->
  exists ess, Forall2 E xs ess /\ acc' = update acc (concat ess).
Proof.
  induction xs as [|x xs IH]; intros Hbody acc acc' Hrun.
  - simpl in Hrun. inversion Hrun; subst. exists []. split; [constructor|reflexivity].
  - apply foldM_Ok_cons in Hrun. destruct Hrun as (acc1 & H1 & Hrest).
    destruct (Hbody acc x acc1 (or_introl eq_refl) H1) as (es & -> & HE).
    destruct (IH (fun a y a' Hy => Hbody a y a' (or_intror Hy)) _ _ Hrest)
      as (ess & Hall & ->).
    exists (es :: ess). split; [constructor; assumption|].
    simpl. apply update_app.
Qed.

Lemma foldM_total {A B} (body : B -> A -> result B) (xs : list A) :
  (forall acc x, In x xs -> exists acc', body acc x = Ok acc') ->
  forall acc, exists acc', foldM body xs acc = Ok acc'.
Proof.
  induction xs as [|x xs IH]; intros Hbody acc; simpl.
  - exists acc; reflexivity.
  - destruct (Hbody acc x (or_introl eq_refl)) as (acc1 & ->). simpl.
    apply IH. intros a y Hy. apply Hbody. right; exact Hy.
Qed.

Lemma Forall2_In_l {A B} (R : A -> B -> Prop) xs ys x :
  Forall2 R xs ys -> In x xs -> exists y, In y ys /\ R x y.
Proof.
  induction 1 as [|a b xs ys Hab _ IH]; simpl; [intros []|].
  intros [->|Hin].
  - exists b; split; [left; reflexivity | exact Hab].
  - destruct (IH Hin) as (y & Hy & HR). exists y; split; [right|]; assumption.
Qed.

Lemma Forall2_In_r {A B} (R : A -> B -> Prop) xs ys y :
  Forall2 R xs ys -> In y ys -> exists x, In x xs /\ R x y.
Proof.
  induction 1 as [|a b xs ys Hab _ IH]; simpl; [intros []|].
  intros [->|Hin].
  - exists a; split; [left; reflexivity | exact Hab].
  - destruct (IH Hin) as (x & Hx & HR). exists x; split; [right|]; assumption.
Qed.

(** ** What each helper of [extract] returns *)

Lemma bind_Ok {A B} (c : result A) (k : A -> result B) b :
  bind c k = Ok b -> exists a, c = Ok a /\ k a = Ok b.
Proof.
  destruct c as [a|e]; simpl; [|discriminate].
  intros H; exists a; split; [reflexivity | exact H].
Qed.

Lemma extract_field_info_Ok field prefix d :
  extract_field_info field prefix = Ok d ->
  exists value confidence,
    value_of field = Ok value /\ get field "confidence" = Ok confidence /\
    d = [(prefix, record value confidence)].
Proof.
  unfold extract_field_info. intros H.
  apply bind_Ok in H. destruct H as (value & Hv & H).
  apply bind_Ok in H. destruct H as (confidence & Hc & H).
  exists value, confidence. repeat split; congruence.
Qed.

Lemma extract_address_values_Ok address_value components :
  extract_address_values address_value = Ok components ->
  keys components = address_component_names.
Proof.
  unfold extract_address_values. intros H.
  repeat (apply bind_Ok in H; destruct H as (? & _ & H)).
  inversion H; reflexivity.
Qed.

(** The address loop stores every component with the sub-field's
    confidence. *)
Lemma address_loop field_name sub_field confidence components w2_dict :
  getattr sub_field "confidence" = Ok confidence ->
  foldM (address_component field_name sub_field) components w2_dict
  = Ok (update w2_dict
          (map (fun cv => (field_name ++ "_Address_" ++ fst cv,
                           record (snd cv) confidence)) components)).
Proof.
  intros Hc. revert w2_dict.
  induction components as [|[cn cv] components IH]; intros w2_dict.
  - reflexivity.
  - cbn [foldM]. unfold address_component at 1. rewrite Hc. cbn [bind].
    rewrite IH. reflexivity.
Qed.

Lemma person_sub_field_Ok field_name w2_dict sub_field_name sub_field w2_dict' :
  person_sub_field field_name w2_dict (sub_field_name, sub_field)
  = Ok w2_dict' ->
  exists es,
    w2_dict' = update w2_dict es /\
    ((sub_field_name <> "Address" /\
      exists value confidence,
        value_of sub_field = Ok value /\
        getattr sub_field "confidence" = Ok confidence /\
        es = [(field_name ++ "_" ++ sub_field_name, record value confidence)])
     \/
     (sub_field_name = "Address" /\
      exists address_value components confidence,
        get sub_field "valueAddress" = Ok address_value /\
        extract_address_values address_value = Ok components /\
        getattr sub_field "confidence" = Ok confidence /\
        es = map (fun cv => (field_name ++ "_Address_" ++ fst cv,
                             record (snd cv) confidence)) components)).
Proof.
  unfold person_sub_field.
  destruct (String.eqb_spec sub_field_name "Address") as [->|Hne]; intros H.
  - apply bind_Ok in H. destruct H as (address_value & Hav & H).
    apply bind_Ok in H. destruct H as (components & Hcs & H).
    destruct (getattr sub_field "confidence") as [confidence|e] eqn:Hc.
    + rewrite (address_loop _ _ confidence) in H by exact Hc.
      inversion H; subst. eexists; split; [reflexivity|].
      right. split; [reflexivity|].
      exists address_value, components, confidence. auto.
    + pose proof (extract_address_values_Ok _ _ Hcs) as Hk.
      destruct components as [|[cn cv] components]; [discriminate|].
      simpl in H. unfold address_component in H at 1. rewrite Hc in H.
      discriminate.
  - apply bind_Ok in H. destruct H as (value & Hv & H).
    apply bind_Ok in H. destruct H as (confidence & Hc & H).
    inversion H; subst.
    exists [(field_name ++ "_" ++ sub_field_name, record value confidence)].
    split; [reflexivity|]. left. split; [exact Hne|].
    exists value, confidence. auto.
Qed.

Lemma array_item_field_Ok item_prefix array_info key value array_info' :
  array_item_field item_prefix array_info (key, value) = Ok array_info' ->
  exists v confidence,
    value_of value = Ok v /\ get value "confidence" = Ok confidence /\
    array_info'
    = update array_info [(item_prefix ++ "_" ++ key, record v confidence)].
Proof.
  unfold array_item_field. intros H.
  apply bind_Ok in H. destruct H as (field_info & Hfi & H).
  apply extract_field_info_Ok in Hfi.
  destruct Hfi as (v & confidence & Hv & Hc & ->).
  exists v, confidence. inversion H; auto.
Qed.

Lemma append_assoc (a b c : string) : (a ++ b) ++ c = a ++ b ++ c.
Proof. induction a as [|x a IH]; simpl; [reflexivity | rewrite IH; reflexivity]. Qed.

Lemma In_concat_keys k (es : dict) (ess : list dict) :
  In es ess -> In k (keys es) -> In k (keys (concat ess)).
Proof.
  intros Hes Hk. unfold keys in *. apply in_map_iff in Hk.
  destruct Hk as ([k' v] & <- & Hin). apply in_map_iff.
  exists (k', v). split; [reflexivity|]. apply in_concat. exists es. auto.
Qed.

Lemma array_item_Ok prefix array_info idx item array_info' :
  array_item prefix array_info (idx, item) = Ok array_info' ->
  exists value_object kvs ess,
    get_default item "valueObject" (PDict []) = Ok value_object /\
    items value_object = Ok kvs /\
    Forall2 (fun kv es =>
               exists v confidence,
                 value_of (snd kv) = Ok v /\
                 get (snd kv) "confidence" = Ok confidence /\
                 es = [(prefix ++ "_" ++ str_nat (idx + 1) ++ "_" ++ fst kv,
                        record v confidence)]) kvs ess /\
    array_info' = update array_info (concat ess).
Proof.
  unfold array_item. intros H.
  apply bind_Ok in H. destruct H as (value_object & Hvo & H).
  apply bind_Ok in H. destruct H as (kvs & Hkvs & H).
  apply foldM_update
    with (E := fun kv es =>
                 exists v confidence,
                   value_of (snd kv) = Ok v /\
                   get (snd kv) "confidence" = Ok confidence /\
                   es = [(prefix ++ "_" ++ str_nat (idx + 1) ++ "_" ++ fst kv,
                          record v confidence)]) in H.
  - destruct H as (ess & Hall & ->).
    exists value_object, kvs, ess. auto.
  - intros acc [key value] acc' _ Hbody.
    apply array_item_field_Ok in Hbody.
    destruct Hbody as (v & confidence & Hv & Hc & ->).
    eexists; split; [reflexivity|]. exists v, confidence.
    repeat split; try assumption. simpl fst.
    rewrite !append_assoc. reflexivity.
Qed.

(** What one field of a document adds to [w2_dict]: exactly the entries
    that [field_entry] describes. *)
Lemma document_field_Ok w2_dict field_name field w2_dict' :
  document_field w2_dict (field_name, field) = Ok w2_dict' ->
  exists es,
    w2_dict' = update w2_dict es /\
    (forall k v, In (k, v) es -> field_entry field_name field k v) /\
    (forall k v, field_entry field_name field k v -> In k (keys es)).
Proof.
  unfold document_field.
  destruct (in_names field_name person_fields) eqn:Hperson;
    [|destruct (in_names field_name array_fields) eqn:Harray]; intros H.
  - (* a person *)
    apply bind_Ok in H. destruct H as (person_data & Hpd & H).
    apply bind_Ok in H. destruct H as (sub_fields & Hsubs & H).
    apply foldM_update
      with (E := fun kv es =>
        (fst kv <> "Address" /\
         exists value confidence,
           value_of (snd kv) = Ok value /\
           getattr (snd kv) "confidence" = Ok confidence /\
           es = [(field_name ++ "_" ++ fst kv, record value confidence)])
        \/
        (fst kv = "Address" /\
         exists address_value components confidence,
           get (snd kv) "valueAddress" = Ok address_value /\
           extract_address_values address_value = Ok components /\
           getattr (snd kv) "confidence" = Ok confidence /\
           es = map (fun cv => (field_name ++ "_Address_" ++ fst cv,
                                record (snd cv) confidence)) components)) in H.
    2:{ intros acc [s sf] acc' _ Hbody.
        apply person_sub_field_Ok in Hbody.
        destruct Hbody as (es & -> & Hes). exists es. split; [reflexivity|].
        exact Hes. }
    destruct H as (ess & Hall & ->).
    exists (concat ess). split; [reflexivity|]. split.
    + intros k v Hin. apply in_concat in Hin. destruct Hin as (es & Hes & Hin).
      destruct (Forall2_In_r _ _ _ _ Hall Hes) as ([s sf] & Hsf & HE).
      simpl in HE.
      destruct HE as [(Hne & value & confidence & Hv & Hc & ->)
                     |(-> & av & comps & confidence & Hav & Hcs & Hc & ->)].
      * destruct Hin as [E|[]]. inversion E; subst.
        eapply entry_person; eassumption.
      * apply in_map_iff in Hin. destruct Hin as ([cn cv] & E & Hin).
        inversion E; subst. eapply entry_address; eassumption.
    + intros k v Hentry.
      inversion Hentry as
          [value confidence Hp
          |pd subs s sf value confidence Hp Hpd' Hsubs' Hin Hne Hv Hc
          |pd subs sf av comps cn cv confidence Hp Hpd' Hsubs' Hin Hav Hcs
              Hcomp Hc
          |array elems i item vo kvs key f' value confidence Hp];
        subst; try congruence.
      * assert (pd = person_data) by congruence; subst pd.
        assert (subs = sub_fields) by congruence; subst subs.
        destruct (Forall2_In_l _ _ _ _ Hall Hin) as (es & Hes & HE).
        simpl in HE.
        destruct HE as [(_ & value' & confidence' & _ & _ & ->)
                       |(Heq & _)]; [|contradiction].
        apply In_concat_keys with (es := [(field_name ++ "_" ++ s,
                                           record value' confidence')]);
          [exact Hes | left; reflexivity].
      * assert (pd = person_data) by congruence; subst pd.
        assert (subs = sub_fields) by congruence; subst subs.
        destruct (Forall2_In_l _ _ _ _ Hall Hin) as (es & Hes & HE).
        simpl in HE.
        destruct HE as [(Hne & _)
                       |(_ & av' & comps' & confidence' & Hav' & Hcs' & _ & ->)];
          [contradiction Hne; reflexivity|].
        assert (av' = av) by congruence; subst av'.
        assert (comps' = comps) by congruence; subst comps'.
        eapply In_concat_keys; [exact Hes|].
        unfold keys. rewrite map_map. simpl.
        apply in_map_iff. exists (cn, cv). split; [reflexivity | exact Hcomp].
  - (* an array *)
    apply bind_Ok in H. destruct H as (array & Harr & H).
    apply bind_Ok in H. destruct H as (array_data & Hdata & H).
    inversion H; subst w2_dict'; clear H.
    unfold extract_array_info in Hdata.
    apply bind_Ok in Hdata. destruct Hdata as (elems & Helems & Hdata).
    apply foldM_update
      with (E := fun ix es =>
        exists value_object kvs ess,
          get_default (snd ix) "valueObject" (PDict []) = Ok value_object /\
          items value_object = Ok kvs /\
          Forall2 (fun kv e =>
                     exists v confidence,
                       value_of (snd kv) = Ok v /\
                       get (snd kv) "confidence" = Ok confidence /\
                       e = [(field_name ++ "_" ++ str_nat (fst ix + 1) ++ "_"
                             ++ fst kv, record v confidence)]) kvs ess /\
          es = concat ess) in Hdata.
    2:{ intros acc [idx item] acc' _ Hbody.
        apply array_item_Ok in Hbody.
        destruct Hbody as (vo & kvs & ess & Hvo & Hkvs & Hall & ->).
        eexists; split; [reflexivity|]. exists vo, kvs, ess. auto. }
    destruct Hdata as (esss & Hall & ->).
    exists (update [] (concat esss)). split; [reflexivity|]. split.
    + intros k v Hin. apply In_update in Hin. destruct Hin as [Hin|[]].
      apply in_concat in Hin. destruct Hin as (es & Hes & Hin).
      destruct (Forall2_In_r _ _ _ _ Hall Hes) as ([idx item] & Hix & HE).
      simpl in HE. destruct HE as (vo & kvs & ess & Hvo & Hkvs & Hall2 & ->).
      apply in_concat in Hin. destruct Hin as (e & He & Hin).
      destruct (Forall2_In_r _ _ _ _ Hall2 He) as ([key f'] & Hkv & HE).
      simpl in HE. destruct HE as (value & confidence & Hv & Hc & ->).
      destruct Hin as [E|[]]. inversion E; subst.
      apply In_enumerate in Hix.
      eapply entry_array; eassumption.
    + intros k v Hentry.
      inversion Hentry as
          [value confidence Hp Ha
          |pd subs s sf value confidence Hp
          |pd subs sf av comps cn cv confidence Hp
          |array' elems' i item vo kvs key f' value confidence Hp Ha Harr'
                  Helems' Hnth Hvo Hkvs Hin Hv Hc];
        subst; try congruence.
      assert (array' = array) by congruence; subst array'.
      assert (elems' = elems) by congruence; subst elems'.
      apply In_enumerate in Hnth.
      destruct (Forall2_In_l _ _ _ _ Hall Hnth) as (es & Hes & HE).
      simpl in HE. destruct HE as (vo' & kvs' & ess & Hvo' & Hkvs' & Hall2 & ->).
      assert (vo' = vo) by congruence; subst vo'.
      assert (kvs' = kvs) by congruence; subst kvs'.
      destruct (Forall2_In_l _ _ _ _ Hall2 Hin) as (e & He & HE).
      simpl in HE. destruct HE as (value' & confidence' & _ & _ & ->).
      apply keys_update. left.
      eapply In_concat_keys; [exact Hes|].
      eapply In_concat_keys; [exact He|]. left; reflexivity.
  - (* any other field *)
    apply bind_Ok in H. destruct H as (field_info & Hfi & H).
    inversion H; subst w2_dict'; clear H.
    pose proof Hfi as Hfi'.
    apply extract_field_info_Ok in Hfi.
    destruct Hfi as (value & confidence & Hv & Hc & ->).
    eexists; split; [reflexivity|]. split.
    + intros k v [E|[]]. inversion E; subst.
      apply entry_plain; assumption.
    + intros k v Hentry.
      inversion Hentry; subst; try congruence. left; reflexivity.
Qed.

(** ** A response typed as the SDK types it is flattened without an
    exception *)

Lemma value_of_obj o : exists v, value_of (PObj o) = Ok v.
Proof.
  unfold value_of, por, get, get_default. simpl.
  destruct (truthy _); [eexists; reflexivity|].
  destruct (truthy _); eexists; reflexivity.
Qed.

Lemma extract_field_info_obj o prefix :
  exists d, extract_field_info (PObj o) prefix = Ok d.
Proof.
  unfold extract_field_info. destruct (value_of_obj o) as (v & ->).
  simpl. eexists; reflexivity.
Qed.

Lemma forallb_In {A} (p : A -> bool) l x :
  forallb p l = true -> In x l -> p x = true.
Proof. intros H. rewrite forallb_forall in H. apply H. Qed.

Lemma typed_sub_field_Ok field_name w2_dict kv :
  typed_sub_field kv = true ->
  exists w2_dict', person_sub_field field_name w2_dict kv = Ok w2_dict'.
Proof.
  destruct kv as [s sf]. unfold typed_sub_field, person_sub_field. simpl.
  destruct (s =? "Address").
  - destruct sf as [| | | | | |o]; try discriminate.
    destruct (lookup "valueAddress" o) as [[| | | | | |a]|] eqn:Ha;
      try discriminate.
    intros _. unfold get, get_default. rewrite Ha. simpl.
    eexists; reflexivity.
  - destruct sf as [| | | | | |o]; try discriminate. intros _.
    destruct (value_of_obj o) as (v & ->). simpl. eexists; reflexivity.
Qed.

Lemma typed_item_Ok prefix array_info idx item :
  typed_item item = true ->
  exists array_info', array_item prefix array_info (idx, item) = Ok array_info'.
Proof.
  unfold typed_item, array_item.
  destruct item as [| | | | | |o]; try discriminate.
  unfold get_default.
  destruct (lookup "valueObject" o) as [[| | | | |kvs|]|]; try discriminate;
    simpl; [|intros _; eexists; reflexivity].
  intros Hall. apply foldM_total. intros acc [key value] Hin.
  pose proof (forallb_In _ _ _ Hall Hin) as Hobj. simpl in Hobj.
  destruct value as [| | | | | |vo]; try discriminate.
  unfold array_item_field.
  edestruct (extract_field_info_obj vo) as (d & Hd). rewrite Hd.
  eexists; reflexivity.
Qed.

Lemma In_enumerate_In {A} (l : list A) i x :
  In (i, x) (enumerate l) -> In x l.
Proof. intros H. apply In_enumerate in H. eapply nth_error_In; exact H. Qed.

Lemma typed_field_Ok w2_dict kv :
  typed_field kv = true ->
  exists w2_dict', document_field w2_dict kv = Ok w2_dict'.
Proof.
  destruct kv as [field_name field]. unfold typed_field, document_field.
  simpl fst; simpl snd.
  destruct (in_names field_name person_fields);
    [|destruct (in_names field_name array_fields)].
  - unfold typed_person. destruct field as [| | | | | |o]; try discriminate.
    unfold get, get_default.
    destruct (lookup "valueObject" o) as [[| | | | |subs|]|]; try discriminate.
    simpl. intros Hall. apply foldM_total. intros acc kv Hin.
    apply typed_sub_field_Ok. eapply forallb_In; eassumption.
  - unfold typed_array. destruct field as [| | | | | |o]; try discriminate.
    unfold get_default.
    destruct (lookup "valueArray" o) as [[| | | |elems| |]|]; try discriminate;
      simpl; [|intros _; eexists; reflexivity].
    intros Hall.
    destruct (foldM_total (array_item field_name) (enumerate elems)) with (acc := @nil (string * PyVal))
      as (d & Hd).
    { intros acc [idx item] Hin. apply typed_item_Ok.
      eapply forallb_In; [exact Hall|]. eapply In_enumerate_In; exact Hin. }
    unfold extract_array_info. simpl. rewrite Hd. simpl.
    eexists; reflexivity.
  - destruct field as [| | | | | |o]; try discriminate. intros _.
    destruct (extract_field_info_obj o field_name) as (d & ->).
    simpl. eexists; reflexivity.
Qed.

Lemma typed_document_Ok document :
  typed_document document = true -> exists d, extract_document document = Ok d.
Proof.
  unfold typed_document, extract_document.
  destruct document as [| | | | | |o]; try discriminate.
  unfold getattr.
  destruct (lookup "fields" o) as [[| | | | |fields|]|]; try discriminate.
  simpl. intros Hall. apply foldM_total. intros acc kv Hin.
  apply typed_field_Ok. eapply forallb_In; eassumption.
Qed.

(** ** The flattened document *)


(** C8. The value of a field is chosen by the chain
    [valueString or valueNumber or value], in [extract_field_info] and in
    the inline code for a person sub-field alike.  A non-empty
    [valueString] is stored as it is.  An empty or unset [valueString] is
    skipped: a non-zero [valueNumber] is then stored, and a [valueNumber]
    that is 0 or unset is skipped in turn for [.get('value')], which is
    [None] when the key is absent. *)
Theorem value_chain_skips_falsy (field vs vn v c : PyVal) :
  get field "valueString" = Ok vs ->
  get field "valueNumber" = Ok vn ->
  get field "value" = Ok v ->
  get field "confidence" = Ok c ->
  let stored := fun value : PyVal =>
    (forall prefix,
        extract_field_info field prefix
        = Ok [(prefix, PDict [("value", value); ("confidence", c)])]) /\
    (forall field_name w2_dict sub_field_name c',
        sub_field_name <> "Address" ->
        getattr field "confidence" = Ok c' ->
        person_sub_field field_name w2_dict (sub_field_name, field)
        = Ok (setitem (field_name ++ "_" ++ sub_field_name)
                      (PDict [("value", value); ("confidence", c')])
                      w2_dict)) in
  (forall s, vs = PStr s -> s <> EmptyString -> stored (PStr s)) /\
  (vs = PNone \/ vs = PStr EmptyString ->
   forall q, vn = PNum q -> Qnum q <> 0%Z -> stored (PNum q)) /\
  (vs = PNone \/ vs = PStr EmptyString ->
   vn = PNone \/ (exists q, vn = PNum q /\ Qnum q = 0%Z) ->
   stored v) /\
  (forall o, field = PObj o -> lookup "value" o = None -> v = PNone) /\
  stored (if truthy vs then vs else if truthy vn then vn else v).
Proof.
  intros Hvs Hvn Hv Hc stored.
  assert (Hchain : forall value,
             (if truthy vs then vs else if truthy vn then vn else v) = value ->
             stored value).
  { intros value Hvalue.
    assert (Hof : value_of field = Ok value).
    { unfold value_of, por. rewrite Hvs, Hvn, Hv. simpl. rewrite <- Hvalue.
      destruct (truthy vs); [reflexivity|].
      destruct (truthy vn); reflexivity. }
    split.
    - intros prefix. unfold extract_field_info. rewrite Hof, Hc. reflexivity.
    - intros field_name w2_dict sub_field_name c' Hne Hc'.
      unfold person_sub_field.
      destruct (String.eqb_spec sub_field_name "Address") as [E|_];
        [contradiction|].
      rewrite Hof, Hc'. reflexivity. }
  assert (Hempty : vs = PNone \/ vs = PStr EmptyString -> truthy vs = false)
    by (intros [->| ->]; reflexivity).
  split; [|split; [|split; [|split]]].
  - intros s -> Hs. apply Hchain. simpl.
    destruct (String.eqb_spec s EmptyString) as [E|_]; [contradiction|].
    reflexivity.
  - intros Hs q -> Hq. apply Hchain. rewrite (Hempty Hs). simpl.
    destruct (Z.eqb_spec (Qnum q) 0) as [E|_]; [contradiction|]. reflexivity.
  - intros Hs Hn. apply Hchain. rewrite (Hempty Hs).
    destruct Hn as [->|(q & -> & Hq)]; simpl; [reflexivity|].
    rewrite Hq. reflexivity.
  - intros o -> Hnone. unfold get, get_default in Hv. rewrite Hnone in Hv.
    congruence.
  - apply Hchain. reflexivity.
Qed.

(** ** More on the flattening *)

Lemma lookup_setitem_eq k v (d : dict) : lookup k (setitem k v d) = Some v.
Proof.
  induction d as [|[k' v'] d IH]; simpl.
  - rewrite String.eqb_refl. reflexivity.
  - destruct (String.eqb_spec k' k) as [->|Hne]; simpl.
    + rewrite String.eqb_refl. reflexivity.
    + destruct (String.eqb_spec k' k) as [E|_]; [contradiction | exact IH].
Qed.

Lemma lookup_setitem_neq k k0 v (d : dict) :
  k <> k0 -> lookup k (setitem k0 v d) = lookup k d.
Proof.
  intros Hne. induction d as [|[k' v'] d IH]; simpl.
  - destruct (String.eqb_spec k0 k) as [E|_]; [|reflexivity].
    symmetry in E. contradiction.
  - destruct (String.eqb_spec k' k0) as [->|Hne0]; simpl.
    + destruct (String.eqb_spec k0 k) as [E|_]; [|reflexivity].
      symmetry in E. contradiction.
    + rewrite IH. reflexivity.
Qed.

Lemma keys_setitem_present k v (d : dict) :
  In k (keys d) -> keys (setitem k v d) = keys d.
Proof.
  induction d as [|[k' v'] d IH]; simpl; [intros []|].
  destruct (String.eqb_spec k' k) as [->|Hne]; simpl; [reflexivity|].
  intros [E|Hin]; [contradiction|]. rewrite IH by exact Hin. reflexivity.
Qed.

Lemma keys_setitem_absent k v (d : dict) :
  ~ In k (keys d) -> keys (setitem k v d) = (keys d ++ [k])%list.
Proof.
  induction d as [|[k' v'] d IH]; simpl; [reflexivity|].
  intros Hnot. destruct (String.eqb_spec k' k) as [->|Hne]; simpl.
  - exfalso. apply Hnot. left; reflexivity.
  - rewrite IH; [reflexivity|]. intros Hin. apply Hnot. right; exact Hin.
Qed.

Lemma lookup_absent k (d : dict) : ~ In k (keys d) -> lookup k d = None.
Proof.
  induction d as [|[k' v'] d IH]; simpl; [reflexivity|].
  intros Hnot. destruct (String.eqb_spec k' k) as [->|Hne].
  - exfalso. apply Hnot. left; reflexivity.
  - apply IH. intros Hin. apply Hnot. right; exact Hin.
Qed.

(** What the [else] branch of lines 147-150 does to [w2_dict]. *)
Lemma plain_field_step w2_dict field_name field w2_dict' :
  in_names field_name person_fields = false ->
  in_names field_name array_fields = false ->
  document_field w2_dict (field_name, field) = Ok w2_dict' ->
  exists value confidence,
    value_of field = Ok value /\
    get field "confidence" = Ok confidence /\
    w2_dict' = setitem field_name (record value confidence) w2_dict.
Proof.
  intros Hperson Harray. unfold document_field. rewrite Hperson, Harray.
  intros H. apply bind_Ok in H. destruct H as (field_info & Hfi & H).
  apply extract_field_info_Ok in Hfi.
  destruct Hfi as (value & confidence & Hv & Hc & ->).
  inversion H; subst. exists value, confidence. auto.
Qed.

(** X13. A field that is neither a person nor an array is stored under its
    own name, in place of whatever an earlier field had put there: after
    the field is handled its name maps to its own record, every other key
    maps to what it mapped to before, and the key keeps its position when
    it was present and goes last when it was not. *)
Theorem plain_field_overwrites_its_key
        (w2_dict : dict) (field_name : string) (field : PyVal)
        (w2_dict' : dict) :
  in_names field_name person_fields = false ->
  in_names field_name array_fields = false ->
  document_field w2_dict (field_name, field) = Ok w2_dict' ->
  exists value confidence,
    value_of field = Ok value /\
    get field "confidence" = Ok confidence /\
    lookup field_name w2_dict' = Some (record value confidence) /\
    (forall k, k <> field_name -> lookup k w2_dict' = lookup k w2_dict) /\
    (In field_name (keys w2_dict) -> keys w2_dict' = keys w2_dict) /\
    (~ In field_name (keys w2_dict) ->
     keys w2_dict' = (keys w2_dict ++ [field_name])%list).
Proof.
  intros Hperson Harray H.
  destruct (plain_field_step _ _ _ _ Hperson Harray H)
    as (value & confidence & Hv & Hc & ->).
  exists value, confidence. split; [exact Hv|]. split; [exact Hc|].
  split; [apply lookup_setitem_eq|]. split; [|split].
  - intros k Hne. apply lookup_setitem_neq. exact Hne.
  - apply keys_setitem_present.
  - apply keys_setitem_absent.
Qed.

Lemma plain_fields_fold (fields : dict) :
  forall acc d,
    (forall kv, In kv fields ->
                in_names (fst kv) person_fields = false /\
                in_names (fst kv) array_fields = false) ->
    NoDup (keys fields) ->
    (forall k, In k (keys fields) -> ~ In k (keys acc)) ->
    foldM document_field fields acc = Ok d ->
    keys d = (keys acc ++ keys fields)%list /\
    (forall k, ~ In k (keys fields) -> lookup k d = lookup k acc) /\
    (forall f field, In (f, field) fields ->
       exists value confidence,
         value_of field = Ok value /\
         get field "confidence" = Ok confidence /\
         lookup f d = Some (record value confidence)).
Proof.
  induction fields as [|[f field] fields IH]; intros acc d Hplain Hnodup Hfresh H.
  - simpl in H. inversion H; subst. simpl. rewrite app_nil_r.
    split; [reflexivity|]. split; [reflexivity|]. intros ? ? [].
  - apply foldM_Ok_cons in H. destruct H as (acc1 & Hstep & Hrest).
    destruct (Hplain (f, field) (or_introl eq_refl)) as (Hperson & Harray).
    destruct (plain_field_step _ _ _ _ Hperson Harray Hstep)
      as (value & confidence & Hv & Hc & ->).
    simpl in Hnodup. inversion Hnodup as [|? ? Hf Hnodup']; subst.
    assert (Hfacc : ~ In f (keys acc)) by (apply Hfresh; left; reflexivity).
    assert (Hkeys1 : keys (setitem f (record value confidence) acc)
                     = (keys acc ++ [f])%list)
      by (apply keys_setitem_absent; exact Hfacc).
    destruct (IH (setitem f (record value confidence) acc) d) as (Hk & Hold & Hnew).
    + intros kv Hin. apply Hplain. right; exact Hin.
    + exact Hnodup'.
    + intros k Hin Habs. rewrite Hkeys1 in Habs. apply in_app_or in Habs.
      destruct Habs as [Habs|[<-|[]]].
      * apply (Hfresh k); [right; exact Hin | exact Habs].
      * apply Hf; exact Hin.
    + exact Hrest.
    + split; [|split].
      * rewrite Hk, Hkeys1, <- app_assoc. reflexivity.
      * intros k Hnot. rewrite Hold.
        -- apply lookup_setitem_neq. intros ->. apply Hnot. left; reflexivity.
        -- intros Hin. apply Hnot. right; exact Hin.
      * intros f' field' [E|Hin].
        -- inversion E; subst f' field'. exists value, confidence.
           split; [exact Hv|]. split; [exact Hc|].
           rewrite Hold by exact Hf. apply lookup_setitem_eq.
        -- apply Hnew. exact Hin.
Qed.

(** X14. A document that holds only fields that are neither persons nor
    arrays, under distinct names, is flattened key for key: the dictionary
    has the names of the fields as its keys, in the order of the fields, and
    each name maps to the record of its own field. *)
Theorem plain_document_is_flattened_key_for_key (document : PyVal) (d : dict) :
  (forall kv, In kv (document_fields document) ->
              in_names (fst kv) person_fields = false /\
              in_names (fst kv) array_fields = false) ->
  NoDup (keys (document_fields document)) ->
  extract_document document = Ok d ->
  keys d = keys (document_fields document) /\
  forall field_name field,
    In (field_name, field) (document_fields document) ->
    exists value confidence,
      value_of field = Ok value /\
      get field "confidence" = Ok confidence /\
      lookup field_name d = Some (record value confidence).
Proof.
  intros Hplain Hnodup H. unfold extract_document in H.
  unfold document_fields in *.
  apply bind_Ok in H. destruct H as (fields & Hfields & H).
  apply bind_Ok in H. destruct H as (field_items & Hitems & H).
  rewrite Hfields, Hitems in Hplain, Hnodup |- *.
  destruct (plain_fields_fold field_items [] d Hplain Hnodup) as (Hk & _ & Hnew).
  - intros k _ [].
  - exact H.
  - split; [exact Hk | exact Hnew].
Qed.

Lemma extract_address_values_obj address_value components :
  extract_address_values address_value = Ok components ->
  exists o,
    address_value = PObj o /\
    components
    = map (fun name =>
             (name, match lookup name o with Some v => v | None => PNone end))
          address_component_names.
Proof.
  destruct address_value as [| | | | | |o]; try discriminate.
  intros H. exists o. split; [reflexivity|].
  unfold extract_address_values in H. simpl in H. inversion H. reflexivity.
Qed.

(** X4. The address of a person always gives five entries, one per
    component name and in the order [house_number], [road], [city],
    [state], [postal_code]: each holds the attribute of the [AddressValue],
    [None] when the attribute is unset, and all five hold the one confidence
    of the sub-field. *)
Theorem address_gives_five_entries
        (field_name : string) (w2_dict : dict) (sub_field : PyVal)
        (w2_dict' : dict) :
  person_sub_field field_name w2_dict ("Address", sub_field) = Ok w2_dict' ->
  exists o confidence,
    get sub_field "valueAddress" = Ok (PObj o) /\
    getattr sub_field "confidence" = Ok confidence /\
    w2_dict'
    = update w2_dict
        (map (fun name =>
                (field_name ++ "_Address_" ++ name,
                 record (match lookup name o with
                         | Some v => v
                         | None => PNone
                         end) confidence))
             address_component_names).
Proof.
  intros H. apply person_sub_field_Ok in H.
  destruct H as (es & -> & [(Hne & _)|(_ & av & comps & confidence & Hav & Hcs
                                       & Hc & ->)]);
    [contradiction Hne; reflexivity|].
  apply extract_address_values_obj in Hcs. destruct Hcs as (o & -> & ->).
  exists o, confidence. split; [exact Hav|]. split; [exact Hc|].
  rewrite map_map. reflexivity.
Qed.

Lemma items_without_value_object prefix (elems : list PyVal) :
  Forall (fun item =>
            get_default item "valueObject" (PDict []) = Ok (PDict [])) elems ->
  forall start acc,
    foldM (array_item prefix) (combine (seq start (length elems)) elems) acc
    = Ok acc.
Proof.
  induction 1 as [|item elems Hitem _ IH]; intros start acc; simpl.
  - reflexivity.
  - unfold array_item at 1. rewrite Hitem. simpl. apply IH.
Qed.

(** X5. An array field adds nothing when none of its items holds a value
    object: when [valueArray] is absent or empty, and when every item lacks
    [valueObject] or holds an empty one, the dictionary is left as it is:
    no key is added, not even the name of the field. *)
Theorem array_without_value_objects_adds_nothing
        (w2_dict : dict) (field_name : string) (field array : PyVal)
        (elems : list PyVal) :
  in_names field_name person_fields = false ->
  in_names field_name array_fields = true ->
  get_default field "valueArray" (PList []) = Ok array ->
  iter array = Ok elems ->
  Forall (fun item =>
            get_default item "valueObject" (PDict []) = Ok (PDict [])) elems ->
  document_field w2_dict (field_name, field) = Ok w2_dict.
Proof.
  intros Hperson Harray Harr Helems Hall. unfold document_field.
  rewrite Hperson, Harray, Harr. simpl bind.
  unfold extract_array_info. rewrite Helems. simpl bind.
  unfold enumerate. rewrite (items_without_value_object _ _ Hall).
  reflexivity.
Qed.

(** Every value of a flattened document is a two-entry record. *)
Lemma extract_document_records document d :
  extract_document document = Ok d ->
  forall kv, In kv d -> exists value confidence, snd kv = record value confidence.
Proof.
  unfold extract_document. intros H.
  apply bind_Ok in H. destruct H as (fields & _ & H).
  apply bind_Ok in H. destruct H as (field_items & _ & H).
  apply foldM_update
    with (E := fun kv es =>
      forall k v, In (k, v) es -> field_entry (fst kv) (snd kv) k v) in H.
  2:{ intros acc [f field] acc' _ Hbody. apply document_field_Ok in Hbody.
      destruct Hbody as (es & -> & Hsound & _). exists es. auto. }
  destruct H as (ess & Hall & ->). intros [k v] Hin.
  apply In_update in Hin. destruct Hin as [Hin|[]].
  apply in_concat in Hin. destruct Hin as (es & Hes & Hin).
  destruct (Forall2_In_r _ _ _ _ Hall Hes) as ([f field] & _ & Hsound).
  pose proof (Hsound k v Hin) as Hentry. simpl in Hentry.
  inversion Hentry; subst; eexists; eexists; reflexivity.
Qed.

(** X15. Unlike an array field, a person field is read without a default:
    a person field that holds no [valueObject] makes the flattening of its
    document raise [AttributeError] (on [None.items()]), and so does an
    [Address] sub-field that holds no [valueAddress] (on
    [None.house_number]). *)
Theorem person_without_value_raises
        (field_name : string) (w2_dict : dict) (o : list (string * PyVal)) :
  (in_names field_name person_fields = true ->
   lookup "valueObject" o = None ->
   exists what,
     document_field w2_dict (field_name, PObj o)
     = Raise (AttributeError what)) /\
  (lookup "valueAddress" o = None ->
   exists what,
     person_sub_field field_name w2_dict ("Address", PObj o)
     = Raise (AttributeError what)).
Proof.
  split.
  - intros Hperson Hnone. unfold document_field. rewrite Hperson.
    unfold get, get_default. rewrite Hnone. simpl. eexists; reflexivity.
  - intros Hnone. unfold person_sub_field. simpl.
    unfold get, get_default. rewrite Hnone. simpl. eexists; reflexivity.
Qed.

Section DatabaseRuns.

Variable DB : Type.
Variable Database : PyVal -> PyVal -> DB.
Variable post2postgres_extract : Row -> DB -> DB * result PyVal.
Variable close : DB -> DB * result unit.
Variable str : PyVal -> string.
Variable str_exc : PyExc -> string.
Variable json_dumps : PyVal -> result string.

Set Default Proof Using "Type".

Local Abbreviation value_and_confidence := (value_and_confidence str).
Local Abbreviation convert_custom_type := (convert_custom_type json_dumps).
Local Abbreviation bind_field_name := (bind_field_name DB).
Local Abbreviation print := (print DB).
Local Abbreviation log := (log DB).
Local Abbreviation await_post2postgres_extract :=
  (await_post2postgres_extract DB post2postgres_extract).
Local Abbreviation await_close := (await_close DB close).
Local Abbreviation insert_field :=
  (insert_field DB post2postgres_extract str json_dumps).
Local Abbreviation on_exception := (on_exception DB str_exc).
Local Abbreviation update_database_body :=
  (update_database_body DB post2postgres_extract close str str_exc json_dumps).
Local Abbreviation update_database :=
  (update_database DB Database post2postgres_extract close str str_exc
                   json_dumps).
Local Abbreviation update_database_any :=
  (update_database_any DB Database post2postgres_extract close str str_exc
                       json_dumps).
Local Abbreviation insert_row := (insert_row str json_dumps).
Local Abbreviation ok_events := (ok_events str).
Local Abbreviation error_line := (error_line str_exc).
Local Abbreviation loop_end :=
  (loop_end DB post2postgres_extract str str_exc json_dumps).
Local Abbreviation claimed_row := (claimed_row str).

(** ** Runs of [update_database] *)

Lemma emits_app (a b : list Event) w : emits (a ++ b)%list w = emits b (emits a w).
Proof. unfold emits. apply fold_left_app. Qed.

Lemma trace_emits evs w : trace (emits evs w) = (trace w ++ evs)%list.
Proof.
  revert w. induction evs as [|e evs IH]; intros w; simpl.
  - rewrite app_nil_r. reflexivity.
  - rewrite IH. simpl. rewrite <- app_assoc. reflexivity.
Qed.

Lemma self_emits evs w : self (emits evs w) = self w.
Proof. revert w. induction evs as [|e evs IH]; intros w; simpl; [|rewrite IH]; reflexivity. Qed.

Lemma azure_credentials_emits evs w :
  azure_credentials (emits evs w) = azure_credentials w.
Proof. revert w. induction evs as [|e evs IH]; intros w; simpl; [|rewrite IH]; reflexivity. Qed.

Lemma utcnow_emits evs w : utcnow (emits evs w) = utcnow w.
Proof. revert w. induction evs as [|e evs IH]; intros w; simpl; [|rewrite IH]; reflexivity. Qed.

(** Lines 28-33 always leave a [str] in [field_value]. *)
Lemma value_and_confidence_Ok field_data v c :
  value_and_confidence field_data = Ok (v, c) ->
  v = PStr (str (claimed_value field_data)) /\
  c = claimed_confidence field_data /\
  has_value_and_confidence field_data = true.
Proof.
  unfold value_and_confidence.
  destruct field_data as [| | | | |d|]; simpl;
    try solve [intros H; inversion H; auto].
  destruct (lookup "value" d) as [x|]; simpl; [|discriminate].
  destruct (lookup "confidence" d) as [y|]; simpl; [|discriminate].
  intros H; inversion H; auto.
Qed.

Lemma value_and_confidence_total field_data :
  has_value_and_confidence field_data = true ->
  value_and_confidence field_data
  = Ok (PStr (str (claimed_value field_data)), claimed_confidence field_data).
Proof.
  unfold value_and_confidence.
  destruct field_data as [| | | | |d|]; simpl; try reflexivity.
  destruct (lookup "value" d) as [x|]; simpl; [|discriminate].
  destruct (lookup "confidence" d) as [y|]; simpl; [|discriminate].
  reflexivity.
Qed.

Lemma insert_row_Ok client_id blob_sas_url doc_name form_type access_id kv row :
  insert_row client_id blob_sas_url doc_name form_type access_id kv = Ok row ->
  row = claimed_row client_id blob_sas_url doc_name form_type access_id kv /\
  has_value_and_confidence (snd kv) = true.
Proof.
  unfold insert_row. intros H.
  apply bind_Ok in H. destruct H as ([v c] & Hvc & H).
  apply value_and_confidence_Ok in Hvc. destruct Hvc as (-> & -> & Hkeys).
  simpl in H. inversion H; subst. split; [reflexivity | exact Hkeys].
Qed.

Lemma insert_row_total client_id blob_sas_url doc_name form_type access_id kv :
  has_value_and_confidence (snd kv) = true ->
  insert_row client_id blob_sas_url doc_name form_type access_id kv
  = Ok (claimed_row client_id blob_sas_url doc_name form_type access_id kv).
Proof.
  intros H. unfold insert_row.
  rewrite (value_and_confidence_total _ H). reflexivity.
Qed.

(** One turn of the inner loop, case by case. *)
Lemma insert_field_run client_id blob_sas_url doc_name form_type access_id
      kv fr :
  insert_field client_id blob_sas_url doc_name form_type access_id kv fr
  = match insert_row client_id blob_sas_url doc_name form_type access_id kv
    with
    | Raise e =>
        ({| world := world fr; database := database fr;
            loc_field_name := Some (fst kv) |}, Raise e)
    | Ok row =>
        match post2postgres_extract row (database fr) with
        | (db', Ok id) =>
            ({| world := emits (ok_events (row, id)) (world fr);
                database := db'; loc_field_name := Some (fst kv) |}, Ok tt)
        | (db', Raise e) =>
            ({| world := emit (Insert row (Raise e)) (world fr);
                database := db'; loc_field_name := Some (fst kv) |}, Raise e)
        end
    end.
Proof.
  destruct kv as [name data].
  unfold insert_field, insert_row, mbind, lift, bind_field_name. simpl.
  destruct (value_and_confidence data) as [[v c]|e]; simpl; [|reflexivity].
  destruct (convert_custom_type v) as [fv|e]; simpl; [|reflexivity].
  unfold await_post2postgres_extract. simpl.
  destruct (post2postgres_extract _ (database fr)) as [db' [id|e]];
    reflexivity.
Qed.

Lemma for_each_app {S A} (body : A -> M S unit) (a b : list A) s :
  for_each body (a ++ b)%list s
  = match for_each body a s with
    | (s', Ok _) => for_each body b s'
    | (s', Raise e) => (s', Raise e)
    end.
Proof.
  revert s. induction a as [|x a IH]; intros s; simpl.
  - reflexivity.
  - unfold mbind. destruct (body x s) as [s1 [[]|e]]; [apply IH | reflexivity].
Qed.

(** The nested loop goes through the pairs of all dictionaries in order. *)
Lemma for_each_concat {S A} (body : A -> M S unit) (ls : list (list A)) s :
  for_each (fun l => for_each body l) ls s = for_each body (concat ls) s.
Proof.
  revert s. induction ls as [|l ls IH]; intros s; simpl.
  - reflexivity.
  - rewrite for_each_app. unfold mbind.
    destruct (for_each body l s) as [s1 [[]|e]]; [apply IH | reflexivity].
Qed.

(** The loop inserts a prefix of the pairs and stops at the first pair
    whose row cannot be built or whose insert raises. *)
Lemma insert_loop_run client_id blob_sas_url doc_name form_type access_id
      pairs :
  forall fr fr' r,
    for_each (insert_field client_id blob_sas_url doc_name form_type access_id)
             pairs fr = (fr', r) ->
    exists done rows rest tail,
      pairs = (done ++ rest)%list /\
      Forall2 (fun kv ri =>
                 insert_row client_id blob_sas_url doc_name form_type
                            access_id kv = Ok (fst ri) /\
                 exists db, snd (post2postgres_extract (fst ri) db)
                            = Ok (snd ri))
              done rows /\
      world fr' = emits (flat_map ok_events rows ++ tail)%list (world fr) /\
      match r with
      | Ok _ => rest = [] /\ tail = []
      | Raise e =>
          exists kv rest',
            rest = kv :: rest' /\
            loc_field_name fr' = Some (fst kv) /\
            ((insert_row client_id blob_sas_url doc_name form_type access_id
                         kv = Raise e /\ tail = [])
             \/
             (exists row db,
                insert_row client_id blob_sas_url doc_name form_type
                           access_id kv = Ok row /\
                snd (post2postgres_extract row db) = Raise e /\
                tail = [Insert row (Raise e)]))
      end.
Proof.
  induction pairs as [|kv pairs IH]; intros fr fr' r Hrun.
  - simpl in Hrun. inversion Hrun; subst.
    exists [], [], [], []. repeat split; constructor.
  - simpl in Hrun. unfold mbind in Hrun. rewrite insert_field_run in Hrun.
    destruct (insert_row client_id blob_sas_url doc_name form_type access_id kv)
      as [row|e] eqn:Hrow.
    + destruct (post2postgres_extract row (database fr)) as [db' [id|e]] eqn:Hpost.
      * apply IH in Hrun.
        destruct Hrun as (done & rows & rest & tail & -> & Hall & Hw & Hr).
        exists (kv :: done), ((row, id) :: rows), rest, tail.
        split; [reflexivity|]. split.
        { constructor; [|exact Hall]. split; [exact Hrow|].
          exists (database fr). simpl fst. rewrite Hpost. reflexivity. }
        split; [|exact Hr].
        rewrite Hw. simpl world. cbn [flat_map].
        rewrite <- app_assoc. rewrite (emits_app (ok_events (row, id))).
        reflexivity.
      * inversion Hrun; subst. exists [], [], (kv :: pairs), [Insert row (Raise e)].
        repeat split; try constructor.
        exists kv, pairs. repeat split. right.
        exists row, (database fr). rewrite Hpost. auto.
    + inversion Hrun; subst. exists [], [], (kv :: pairs), [].
      repeat split; try constructor.
      exists kv, pairs. repeat split. left. auto.
Qed.

(** A whole call: the pairs inserted, how the loop ended, and [close] last. *)
Lemma update_database_run client_id blob_sas_url doc_name form_type
      extracted_values access_id w w' r :
  update_database client_id blob_sas_url doc_name form_type extracted_values
                  access_id w = (w', r) ->
  exists done rows rest tail db,
    concat extracted_values = (done ++ rest)%list /\
    Forall2 (fun kv ri =>
               insert_row client_id blob_sas_url doc_name form_type
                          access_id kv = Ok (fst ri) /\
               exists db, snd (post2postgres_extract (fst ri) db)
                          = Ok (snd ri))
            done rows /\
    loop_end client_id blob_sas_url doc_name form_type access_id rest tail /\
    w' = emits (NewDatabase client_id blob_sas_url
                :: flat_map ok_events rows ++ tail ++ [Close r])%list w /\
    r = snd (close db).
Proof.
  unfold update_database, update_database_body, try_finally, try_except.
  rewrite for_each_concat.
  destruct (for_each _ (concat extracted_values) _) as [fr1 r1] eqn:Hloop.
  apply insert_loop_run in Hloop.
  destruct Hloop as (done & rows & rest & tail & Hsplit & Hall & Hw & Hr).
  simpl world in Hw.
  destruct r1 as [[]|e].
  - destruct Hr as (-> & ->). unfold await_close.
    destruct (close (database fr1)) as [db' rc] eqn:Hclose. simpl.
    intros H.
    exists done, rows, [], [], (database fr1).
    split; [exact Hsplit|]. split; [exact Hall|]. split; [constructor|].
    rewrite Hclose. simpl snd.
    destruct rc as [[]|ec]; simpl in H; inversion H; subst; clear H;
      (split; [|reflexivity]); rewrite Hw, !emits_app; reflexivity.
  - destruct Hr as (kv & rest' & -> & Hname & Hcase).
    unfold on_exception. rewrite Hname. unfold print, log, await_close. simpl.
    destruct (close (database fr1)) as [db' rc] eqn:Hclose. simpl.
    intros H.
    exists done, rows, (kv :: rest'),
      (tail ++ [Print (error_line (fst kv) e)])%list, (database fr1).
    split; [exact Hsplit|]. split; [exact Hall|]. split.
    { destruct Hcase as [(Hrow & ->)|(row & db & Hrow & Hpost & ->)]; simpl.
      - apply end_row_raised. exact Hrow.
      - eapply end_insert_raised; eassumption. }
    rewrite Hclose. simpl snd.
    destruct rc as [[]|ec]; simpl in H; inversion H; subst; clear H;
      (split; [|reflexivity]); rewrite Hw, !emits_app; reflexivity.
Qed.

Lemma inserted_rows_app (a b : list Event) :
  inserted_rows (a ++ b)%list = (inserted_rows a ++ inserted_rows b)%list.
Proof.
  induction a as [|e a IH]; simpl; [reflexivity|].
  destruct e; simpl; rewrite IH; reflexivity.
Qed.

Lemma inserted_rows_ok_events (rows : list (Row * PyVal)) :
  inserted_rows (flat_map ok_events rows) = map fst rows.
Proof.
  induction rows as [|[row id] rows IH]; simpl; [reflexivity|].
  rewrite IH. reflexivity.
Qed.

Lemma rows_of_done client_id blob_sas_url doc_name form_type access_id
      done rows :
  Forall2 (fun kv ri =>
             insert_row client_id blob_sas_url doc_name form_type
                        access_id kv = Ok (fst ri) /\
             exists db : DB, snd (post2postgres_extract (fst ri) db)
                             = Ok (snd ri))
          done rows ->
  map fst rows
  = map (claimed_row client_id blob_sas_url doc_name form_type access_id) done.
Proof.
  induction 1 as [|kv ri done rows (Hrow & _) _ IH]; simpl; [reflexivity|].
  apply insert_row_Ok in Hrow. destruct Hrow as (-> & _). rewrite IH.
  reflexivity.
Qed.

Lemma In_ok_events e (rows : list (Row * PyVal)) :
  In e (flat_map ok_events rows) ->
  (exists row id, In (row, id) rows /\ e = Insert row (Ok id))
  \/ exists line, e = Print line.
Proof.
  intros H. apply in_flat_map in H. destruct H as ([row id] & Hin & He).
  destruct He as [<-|[<-|[]]].
  - left. exists row, id. auto.
  - right. eexists; reflexivity.
Qed.

(** ** The properties of [update_database] *)

Lemma update_database_trace client_id blob_sas_url doc_name form_type
      extracted_values access_id w :
  exists done rows rest tail db,
    concat extracted_values = (done ++ rest)%list /\
    map fst rows
    = map (claimed_row client_id blob_sas_url doc_name form_type access_id)
          done /\
    Forall (fun ri => exists db, snd (post2postgres_extract (fst ri) db)
                                 = Ok (snd ri)) rows /\
    loop_end client_id blob_sas_url doc_name form_type access_id rest tail /\
    trace (fst (update_database client_id blob_sas_url doc_name form_type
                                extracted_values access_id w))
    = (trace w
       ++ NewDatabase client_id blob_sas_url
          :: flat_map ok_events rows ++ tail
          ++ [Close (snd (update_database client_id blob_sas_url doc_name
                                          form_type extracted_values
                                          access_id w))])%list /\
    self (fst (update_database client_id blob_sas_url doc_name form_type
                               extracted_values access_id w)) = self w /\
    snd (update_database client_id blob_sas_url doc_name form_type
                         extracted_values access_id w) = snd (close db).
Proof.
  destruct (update_database client_id blob_sas_url doc_name form_type
                            extracted_values access_id w) as [w' r] eqn:Hrun.
  apply update_database_run in Hrun.
  destruct Hrun as (done & rows & rest & tail & db & Hsplit & Hall & Hend
                    & -> & Hr).
  exists done, rows, rest, tail, db. cbn [fst snd].
  split; [exact Hsplit|]. split; [eapply rows_of_done; exact Hall|]. split.
  { clear - Hall. induction Hall as [|kv ri done rows (_ & Hdb) _ IH];
      constructor; assumption. }
  split; [exact Hend|]. split; [apply trace_emits|].
  split; [apply self_emits | exact Hr].
Qed.

(** C3, with the keys present. When no insert raises and every dict-valued
    [field_data] holds the keys ['value'] and ['confidence'],
    [update_database] calls
    [post2postgres_extract] once for each pair of each dictionary of
    [extracted_values], in order and for nothing else: with
    [str(field_data['value'])] and [field_data['confidence']] for a dict,
    with [str(field_data)] and [None] otherwise, always with the status
    ['extracted'] and the identifiers it was given. *)
Theorem update_database_inserts_each_field_once
        (client_id blob_sas_url doc_name form_type : PyVal)
        (extracted_values : list dict) (access_id : PyVal) (w : World) :
  (forall row db, exists id, snd (post2postgres_extract row db) = Ok id) ->
  (forall kv, In kv (concat extracted_values) ->
              has_value_and_confidence (snd kv) = true) ->
  inserted_rows
    (trace (fst (update_database client_id blob_sas_url doc_name form_type
                                 extracted_values access_id w)))
  = (inserted_rows (trace w)
     ++ map (claimed_row client_id blob_sas_url doc_name form_type access_id)
            (concat extracted_values))%list.
Proof.
  intros Hinsert Hkeys.
  destruct (update_database_trace client_id blob_sas_url doc_name form_type
                                  extracted_values access_id w)
    as (done & rows & rest & tail & db & Hsplit & Hrows & _ & Hend & -> & _).
  destruct Hend as [|kv rest e Hrow|kv rest row db' e Hrow Hpost].
  - rewrite Hsplit, app_nil_r. rewrite inserted_rows_app. f_equal.
    simpl. rewrite inserted_rows_app, inserted_rows_ok_events. simpl.
    rewrite app_nil_r. exact Hrows.
  - rewrite insert_row_total in Hrow; [discriminate|].
    apply Hkeys. rewrite Hsplit. apply in_or_app. right; left; reflexivity.
  - destruct (Hinsert row db') as (id & Hid). congruence.
Qed.

(** C2, as the code has it. When an insert raises, the loop is left at once:
    the failed insert is the last one of the call, no later field of the
    current dictionary and no later dictionary is inserted, and what
    follows the failed insert is the line that the [except] clause prints
    and [close]. *)
Theorem update_database_stops_at_failed_insert
        (client_id blob_sas_url doc_name form_type : PyVal)
        (extracted_values : list dict) (access_id : PyVal) (w : World)
        (new : list Event) (row : Row) (e : PyExc) :
  trace (fst (update_database client_id blob_sas_url doc_name form_type
                              extracted_values access_id w))
  = (trace w ++ new)%list ->
  In (Insert row (Raise e)) new ->
  exists done kv rest rows,
    concat extracted_values = (done ++ kv :: rest)%list /\
    row = claimed_row client_id blob_sas_url doc_name form_type access_id kv /\
    new = (NewDatabase client_id blob_sas_url
           :: flat_map ok_events rows
           ++ [Insert row (Raise e);
               Print (error_line (fst kv) e);
               Close (snd (update_database client_id blob_sas_url doc_name
                                           form_type extracted_values
                                           access_id w))])%list /\
    inserted_rows new
    = map (claimed_row client_id blob_sas_url doc_name form_type access_id)
          (done ++ [kv])%list.
Proof.
  intros Htrace Hin.
  destruct (update_database_trace client_id blob_sas_url doc_name form_type
                                  extracted_values access_id w)
    as (done & rows & rest & tail & db & Hsplit & Hrows & _ & Hend & Hw & _).
  rewrite Hw in Htrace. apply app_inv_head in Htrace. subst new.
  assert (Htail : In (Insert row (Raise e)) tail).
  { destruct Hin as [Hin|Hin]; [discriminate|].
    apply in_app_or in Hin. destruct Hin as [Hin|Hin].
    - apply In_ok_events in Hin.
      destruct Hin as [(r' & id & _ & Habs)|(line & Habs)]; discriminate.
    - apply in_app_or in Hin. destruct Hin as [Hin|[Hin|[]]];
        [exact Hin | discriminate]. }
  destruct Hend as [|kv rest e' Hrow|kv rest row' db' e' Hrow Hpost].
  - destruct Htail.
  - destruct Htail as [Habs|[]]. discriminate.
  - destruct Htail as [E|[Habs|[]]]; [|discriminate].
    inversion E; subst row' e'. clear E.
    apply insert_row_Ok in Hrow. destruct Hrow as (Hrow & _).
    exists done, kv, rest, rows. split; [exact Hsplit|].
    split; [exact Hrow|]. split; [reflexivity|].
    simpl. rewrite inserted_rows_app, inserted_rows_ok_events. simpl.
    rewrite map_app, Hrows, Hrow. reflexivity.
Qed.

Lemma for_each_ext {S A} (f g : A -> M S unit) (l : list A) :
  (forall x s, f x s = g x s) -> forall s, for_each f l s = for_each g l s.
Proof.
  intros Hext. induction l as [|x l IH]; intros s; simpl; [reflexivity|].
  unfold mbind. rewrite Hext. destruct (g x s) as [s1 [[]|e]];
    [apply IH | reflexivity].
Qed.

Lemma for_each_map {S A B} (body : B -> M S unit) (f : A -> B) (l : list A) :
  forall s, for_each body (map f l) s = for_each (fun x => body (f x)) l s.
Proof.
  induction l as [|x l IH]; intros s; simpl; [reflexivity|].
  unfold mbind. destruct (body (f x) s) as [s1 [[]|e]];
    [apply IH | reflexivity].
Qed.

(** On a list of dictionaries the two models of [update_database] are the
    same computation. *)
Lemma update_database_any_list client_id blob_sas_url doc_name form_type
      (extracted_values : list dict) access_id w :
  update_database_any client_id blob_sas_url doc_name form_type
                      (PList (map PDict extracted_values)) access_id w
  = update_database client_id blob_sas_url doc_name form_type
                    extracted_values access_id w.
Proof.
  unfold update_database_any, update_database, update_database_any_body,
    update_database_body, try_finally, try_except.
  simpl iter. unfold mbind at 1, lift at 1.
  rewrite for_each_map.
  rewrite (for_each_ext _
             (fun extracted_value =>
                for_each (insert_field client_id blob_sas_url doc_name
                                       form_type access_id)
                         extracted_value)).
  - reflexivity.
  - intros d fr. reflexivity.
Qed.

(** Neither loop closes the database. *)
Lemma insert_loop_keeps_open client_id blob_sas_url doc_name form_type
      access_id pairs fr fr' r :
  for_each (insert_field client_id blob_sas_url doc_name form_type access_id)
           pairs fr = (fr', r) ->
  exists evs,
    world fr' = emits evs (world fr) /\
    forall outcome, ~ In (Close outcome) evs.
Proof.
  intros H. apply insert_loop_run in H.
  destruct H as (done & rows & rest & tail & _ & _ & Hw & Hr).
  exists (flat_map ok_events rows ++ tail)%list. split; [exact Hw|].
  intros outcome Hin. apply in_app_or in Hin. destruct Hin as [Hin|Hin].
  - apply In_ok_events in Hin.
    destruct Hin as [(r' & id & _ & Habs)|(line & Habs)]; discriminate.
  - destruct r as [[]|e].
    + destruct Hr as (_ & ->). destruct Hin.
    + destruct Hr as (kv & rest' & _ & _ & [(_ & ->)|(row & db & _ & _ & ->)]).
      * destruct Hin.
      * destruct Hin as [Habs|[]]. discriminate.
Qed.

Lemma any_loop_keeps_open client_id blob_sas_url doc_name form_type
      access_id (elements : list PyVal) :
  forall fr fr' r,
    for_each
      (fun extracted_value =>
         pairs <~ lift (items extracted_value) ;;
         for_each (insert_field client_id blob_sas_url doc_name form_type
                                access_id) pairs)
      elements fr = (fr', r) ->
    exists evs,
      world fr' = emits evs (world fr) /\
      forall outcome, ~ In (Close outcome) evs.
Proof.
  induction elements as [|x elements IH]; intros fr fr' r H.
  - simpl in H. inversion H; subst. exists []. split; [reflexivity|].
    intros outcome [].
  - simpl in H. unfold mbind at 1 in H. unfold mbind at 1, lift in H.
    destruct (items x) as [pairs|e].
    + destruct (for_each _ pairs fr) as [fr1 r1] eqn:Hinner.
      apply insert_loop_keeps_open in Hinner.
      destruct Hinner as (evs1 & Hw1 & Hopen1).
      destruct r1 as [[]|e].
      * apply IH in H. destruct H as (evs2 & Hw2 & Hopen2).
        exists (evs1 ++ evs2)%list. split.
        -- rewrite Hw2, Hw1, emits_app. reflexivity.
        -- intros outcome Hin. apply in_app_or in Hin.
           destruct Hin as [Hin|Hin]; [eapply Hopen1 | eapply Hopen2];
             exact Hin.
      * inversion H; subst. exists evs1. auto.
    + inversion H; subst. exists []. split; [reflexivity|].
      intros outcome [].
Qed.

Lemma any_try_keeps_open client_id blob_sas_url doc_name form_type
      extracted_values access_id fr fr' r :
  (elements <~ lift (iter extracted_values) ;;
   for_each
     (fun extracted_value =>
        pairs <~ lift (items extracted_value) ;;
        for_each (insert_field client_id blob_sas_url doc_name form_type
                               access_id) pairs)
     elements) fr = (fr', r) ->
  exists evs,
    world fr' = emits evs (world fr) /\
    forall outcome, ~ In (Close outcome) evs.
Proof.
  unfold mbind at 1, lift at 1.
  destruct (iter extracted_values) as [elements|e]; intros H.
  - eapply any_loop_keeps_open. exact H.
  - inversion H; subst. exists []. split; [reflexivity|]. intros outcome [].
Qed.

(** [try: c  finally: await database.close()]. *)
Lemma finally_close_run (c : M (Frame DB) unit) fr fr2 r2 :
  c fr = (fr2, r2) ->
  exists db' rc,
    close (database fr2) = (db', rc) /\
    world (fst (try_finally c await_close fr)) = emit (Close rc) (world fr2) /\
    snd (try_finally c await_close fr)
    = match rc with Ok _ => r2 | Raise e => Raise e end.
Proof.
  intros Hc. unfold try_finally, await_close. rewrite Hc.
  destruct (close (database fr2)) as [db' rc]. exists db', rc.
  split; [reflexivity|]. destruct rc as [[]|e]; split; reflexivity.
Qed.

(** The [try] with its [except] clause, for whatever value
    [extracted_values] holds: it leaves the database open, and it returns
    unless the clause finds [field_name] unbound. *)
Lemma guarded_loop_run client_id blob_sas_url doc_name form_type
      extracted_values access_id fr fr2 r2 :
  try_except
    (elements <~ lift (iter extracted_values) ;;
     for_each
       (fun extracted_value =>
          pairs <~ lift (items extracted_value) ;;
          for_each (insert_field client_id blob_sas_url doc_name form_type
                                 access_id) pairs)
       elements)
    on_exception fr = (fr2, r2) ->
  exists evs,
    world fr2 = emits evs (world fr) /\
    (forall outcome, ~ In (Close outcome) evs) /\
    (r2 = Ok tt \/ r2 = Raise (UnboundLocalError "field_name")).
Proof.
  unfold try_except.
  match goal with
  | |- context [mbind ?c ?k fr] => destruct (mbind c k fr) as [fr1 r1] eqn:Hloop
  end.
  apply any_try_keeps_open in Hloop. destruct Hloop as (evs & Hw & Hopen).
  destruct r1 as [[]|e].
  - intros H. inversion H; subst. exists evs. auto.
  - unfold on_exception. destruct (loc_field_name fr1) as [name|].
    + unfold print, log. intros H. inversion H; subst. simpl world.
      exists (evs ++ [Print ("An error occurred while inserting field '"
                             ++ name ++ "': " ++ str_exc e)])%list.
      split; [rewrite emits_app, <- Hw; reflexivity|]. split; [|left; reflexivity].
      intros outcome Hin. apply in_app_or in Hin.
      destruct Hin as [Hin|[Habs|[]]]; [eapply Hopen; exact Hin | discriminate].
    + intros H. inversion H; subst. exists evs. auto.
Qed.

(** What a call does for whatever value [extracted_values] holds: [close]
    comes once and last, and the caller gets its outcome, or the
    [UnboundLocalError] of the [except] clause. *)
Lemma update_database_any_run client_id blob_sas_url doc_name form_type
      extracted_values access_id w :
  exists events outcome db,
    trace (fst (update_database_any client_id blob_sas_url doc_name form_type
                                    extracted_values access_id w))
    = (trace w
       ++ NewDatabase client_id blob_sas_url
          :: events ++ [Close outcome])%list /\
    (forall oc, ~ In (Close oc) events) /\
    outcome = snd (close db) /\
    (snd (update_database_any client_id blob_sas_url doc_name form_type
                              extracted_values access_id w) = outcome
     \/ (outcome = Ok tt /\
         snd (update_database_any client_id blob_sas_url doc_name form_type
                                  extracted_values access_id w)
         = Raise (UnboundLocalError "field_name"))).
Proof.
  unfold update_database_any, update_database_any_body.
  match goal with
  | |- context [try_finally ?c await_close ?fr0] =>
      destruct (c fr0) as [fr2 r2] eqn:Hguard;
      destruct (finally_close_run c fr0 fr2 r2 Hguard)
        as (db' & rc & Hclose & Hworld & Hout);
      destruct (try_finally c await_close fr0) as [fr3 r3]
  end.
  apply guarded_loop_run in Hguard. destruct Hguard as (evs & Hw & Hopen & Hr2).
  simpl in Hworld, Hout, Hw. cbn [fst snd].
  exists evs, rc, (database fr2). rewrite Hclose. simpl snd.
  split; [|split; [exact Hopen|split; [reflexivity|]]].
  - rewrite Hworld, Hw. simpl trace. rewrite trace_emits. simpl.
    rewrite <- !app_assoc. reflexivity.
  - subst r3. destruct rc as [[]|e]; [|left; reflexivity].
    destruct Hr2 as [->| ->]; [left | right]; auto.
Qed.


(** C9. [field_value] is a [str] on both branches of lines 28-33, so the
    test [isinstance(field_value, list)] of line 36 is false whenever it is
    reached and lines 36-37 leave [field_value] as it is; every row that
    [update_database] passes to [post2postgres_extract] carries the [str()]
    of the extracted value. *)
Theorem field_value_is_always_a_str
        (client_id blob_sas_url doc_name form_type : PyVal)
        (extracted_values : list dict) (access_id : PyVal) (w : World) :
  (forall field_data v c,
      value_and_confidence field_data = Ok (v, c) ->
      v = PStr (str (claimed_value field_data)) /\
      isinstance_list v = false /\
      convert_custom_type v = Ok v) /\
  (forall new row outcome,
      trace (fst (update_database client_id blob_sas_url doc_name form_type
                                  extracted_values access_id w))
      = (trace w ++ new)%list ->
      In (Insert row outcome) new ->
      exists kv,
        In kv (concat extracted_values) /\
        field_name row = fst kv /\
        field_value row = PStr (str (claimed_value (snd kv)))).
Proof.
  split.
  - intros field_data v c H. apply value_and_confidence_Ok in H.
    destruct H as (-> & _ & _). repeat split.
  - intros new row outcome Htrace Hin.
    destruct (update_database_trace client_id blob_sas_url doc_name form_type
                                    extracted_values access_id w)
      as (done & rows & rest & tail & db & Hsplit & Hrows & _ & Hend & Hw & _).
    rewrite Hw in Htrace. apply app_inv_head in Htrace. subst new.
    destruct Hin as [Hin|Hin]; [discriminate|].
    apply in_app_or in Hin. destruct Hin as [Hin|Hin].
    + apply In_ok_events in Hin.
      destruct Hin as [(r' & id & Hri & E)|(line & Habs)]; [|discriminate].
      inversion E; subst r' outcome.
      assert (Hrow : In row (map fst rows))
        by (apply in_map_iff; exists (row, id); auto).
      rewrite Hrows in Hrow. apply in_map_iff in Hrow.
      destruct Hrow as (kv & <- & Hkv). exists kv.
      split; [|split; reflexivity].
      rewrite Hsplit. apply in_or_app. left; exact Hkv.
    + apply in_app_or in Hin. destruct Hin as [Hin|[Habs|[]]];
        [|discriminate].
      destruct Hend as [|kv rest e' Hrow|kv rest row' db' e' Hrow Hpost].
      * destruct Hin.
      * destruct Hin as [Habs|[]]. discriminate.
      * destruct Hin as [E|[Habs|[]]]; [|discriminate].
        inversion E; subst row' outcome.
        apply insert_row_Ok in Hrow. destruct Hrow as (-> & _).
        exists kv. split; [|split; reflexivity].
        rewrite Hsplit. apply in_or_app. right; left; reflexivity.
Qed.

Lemma update_database_leaves_self client_id blob_sas_url doc_name form_type
      extracted_values access_id w :
  self (fst (update_database client_id blob_sas_url doc_name form_type
                             extracted_values access_id w)) = self w.
Proof.
  destruct (update_database_trace client_id blob_sas_url doc_name form_type
                                  extracted_values access_id w)
    as (done & rows & rest & tail & db & _ & _ & _ & _ & _ & Hself & _).
  exact Hself.
Qed.

(** ** More on [update_database] *)

Lemma take_while_all {A} (p : A -> bool) (l : list A) :
  Forall (fun x => p x = true) l -> take_while p l = l.
Proof.
  induction 1 as [|x l Hx _ IH]; simpl; [reflexivity|].
  rewrite Hx, IH. reflexivity.
Qed.

Lemma take_while_stop {A} (p : A -> bool) (a : list A) x (b : list A) :
  Forall (fun y => p y = true) a -> p x = false ->
  take_while p (a ++ x :: b)%list = a.
Proof.
  intros Ha Hx. induction Ha as [|y a Hy _ IH]; simpl.
  - rewrite Hx. reflexivity.
  - rewrite Hy, IH. reflexivity.
Qed.

(** Lines 28-37 raise only [KeyError], and only on a dict that lacks one of
    the two keys. *)
Lemma insert_row_Raise client_id blob_sas_url doc_name form_type access_id
      kv e :
  insert_row client_id blob_sas_url doc_name form_type access_id kv = Raise e ->
  keyed kv = false /\ (e = KeyError "value" \/ e = KeyError "confidence").
Proof.
  destruct kv as [name data]. unfold insert_row, keyed. simpl snd.
  destruct (has_value_and_confidence data) eqn:Hk.
  - rewrite (value_and_confidence_total _ Hk). simpl. discriminate.
  - unfold value_and_confidence. destruct data as [| | | | |d|]; try discriminate.
    simpl in *. destruct (lookup "value" d) as [x|]; simpl.
    + destruct (lookup "confidence" d) as [y|]; simpl; [discriminate|].
      intros H. inversion H. auto.
    + intros H. inversion H. auto.
Qed.

(** With a store that takes every row, the loop inserts the pairs up to the
    first one that lacks a key. *)
Lemma never_raising_store_run client_id blob_sas_url doc_name form_type
      extracted_values access_id w :
  (forall row db, exists id, snd (post2postgres_extract row db) = Ok id) ->
  exists done rows rest tail,
    concat extracted_values = (done ++ rest)%list /\
    Forall (fun kv => keyed kv = true) done /\
    map fst rows
    = map (claimed_row client_id blob_sas_url doc_name form_type access_id)
          done /\
    ((rest = [] /\ tail = [])
     \/ exists kv rest' key,
          rest = kv :: rest' /\ keyed kv = false /\
          (key = "value" \/ key = "confidence") /\
          tail = [Print (error_line (fst kv) (KeyError key))]) /\
    trace (fst (update_database client_id blob_sas_url doc_name form_type
                                extracted_values access_id w))
    = (trace w
       ++ NewDatabase client_id blob_sas_url
          :: flat_map ok_events rows ++ tail
          ++ [Close (snd (update_database client_id blob_sas_url doc_name
                                          form_type extracted_values
                                          access_id w))])%list.
Proof.
  intros Hstore.
  destruct (update_database client_id blob_sas_url doc_name form_type
                            extracted_values access_id w) as [w' r] eqn:Hrun.
  apply update_database_run in Hrun.
  destruct Hrun as (done & rows & rest & tail & db & Hsplit & Hall & Hend
                    & -> & _).
  exists done, rows, rest, tail. cbn [fst snd].
  split; [exact Hsplit|]. split.
  { clear - Hall. induction Hall as [|kv ri done rows (Hrow & _) _ IH];
      constructor; [|exact IH].
    apply insert_row_Ok in Hrow. apply Hrow. }
  split; [eapply rows_of_done; exact Hall|]. split; [|apply trace_emits].
  destruct Hend as [|kv rest e Hrow|kv rest row db' e Hrow Hpost].
  - left. auto.
  - right. apply insert_row_Raise in Hrow.
    destruct Hrow as (Hk & [->| ->]); eexists; eexists; eexists; eauto.
  - destruct (Hstore row db') as (id & Hid). congruence.
Qed.

(** X9. With a store that takes every row, [update_database] inserts the
    rows of the pairs that come before the first dict-valued [field_data]
    lacking ['value'] or ['confidence'], in order, and no other row:
    nothing from that pair on is inserted, in that dictionary or in a
    later one. *)
Theorem update_database_inserts_until_missing_key
        (client_id blob_sas_url doc_name form_type : PyVal)
        (extracted_values : list dict) (access_id : PyVal) (w : World) :
  (forall row db, exists id, snd (post2postgres_extract row db) = Ok id) ->
  inserted_rows
    (trace (fst (update_database client_id blob_sas_url doc_name form_type
                                 extracted_values access_id w)))
  = (inserted_rows (trace w)
     ++ map (claimed_row client_id blob_sas_url doc_name form_type access_id)
            (take_while keyed (concat extracted_values)))%list.
Proof.
  intros Hstore.
  destruct (never_raising_store_run client_id blob_sas_url doc_name form_type
                                    extracted_values access_id w Hstore)
    as (done & rows & rest & tail & Hsplit & Hdone & Hrows & Hend & ->).
  rewrite inserted_rows_app. f_equal. simpl.
  rewrite inserted_rows_app, inserted_rows_ok_events, Hrows, Hsplit.
  destruct Hend as [(-> & ->)|(kv & rest' & key & -> & Hk & _ & ->)].
  - simpl inserted_rows. rewrite !app_nil_r, (take_while_all _ _ Hdone).
    reflexivity.
  - simpl inserted_rows.
    rewrite app_nil_r, (take_while_stop _ _ _ _ Hdone Hk). reflexivity.
Qed.

(** X10. With a store that takes every row, the first dict-valued
    [field_data] that lacks ['value'] or ['confidence'] is reported as a
    failed insert of its field although no insert is attempted for it: the
    rows before it are inserted, then the [except] clause prints its line
    with the field's name and the [KeyError], and [close] follows. *)
Theorem missing_key_is_reported_as_failed_insert
        (client_id blob_sas_url doc_name form_type : PyVal)
        (extracted_values : list dict) (access_id : PyVal) (w : World)
        (before : list (string * PyVal)) (kv : string * PyVal)
        (after : list (string * PyVal)) :
  (forall row db, exists id, snd (post2postgres_extract row db) = Ok id) ->
  concat extracted_values = (before ++ kv :: after)%list ->
  Forall (fun x => keyed x = true) before ->
  keyed kv = false ->
  exists rows key,
    (key = "value" \/ key = "confidence") /\
    map fst rows
    = map (claimed_row client_id blob_sas_url doc_name form_type access_id)
          before /\
    trace (fst (update_database client_id blob_sas_url doc_name form_type
                                extracted_values access_id w))
    = (trace w
       ++ NewDatabase client_id blob_sas_url
          :: flat_map ok_events rows
          ++ [Print (error_line (fst kv) (KeyError key));
              Close (snd (update_database client_id blob_sas_url doc_name
                                          form_type extracted_values
                                          access_id w))])%list.
Proof.
  intros Hstore Hsplit' Hbefore Hkv.
  destruct (never_raising_store_run client_id blob_sas_url doc_name form_type
                                    extracted_values access_id w Hstore)
    as (done & rows & rest & tail & Hsplit & Hdone & Hrows & Hend & Htrace).
  assert (Hpre : take_while keyed (concat extracted_values) = before)
    by (rewrite Hsplit'; apply take_while_stop; assumption).
  destruct Hend as [(-> & ->)|(kv' & rest' & key & -> & Hk & Hkey & ->)].
  - exfalso. rewrite Hsplit, app_nil_r, (take_while_all _ _ Hdone) in Hpre.
    rewrite Hsplit, app_nil_r, Hpre in Hsplit'.
    rewrite <- (app_nil_r before) in Hsplit' at 1.
    apply app_inv_head in Hsplit'. discriminate.
  - rewrite Hsplit, (take_while_stop _ _ _ _ Hdone Hk) in Hpre. subst done.
    rewrite Hsplit in Hsplit'. apply app_inv_head in Hsplit'.
    inversion Hsplit'; subst kv' rest'.
    exists rows, key. split; [exact Hkey|]. split; [exact Hrows|].
    exact Htrace.
Qed.

Lemma firstn_map_app {A B} (f : A -> B) (a b : list A) :
  firstn (length a) (map f (a ++ b)%list) = map f a.
Proof.
  induction a as [|x a IH]; simpl; [reflexivity|]. rewrite IH. reflexivity.
Qed.

(** X11. Whatever the store and the dictionaries, the rows that
    [update_database] inserts are the rows of the first [n] pairs of
    [extracted_values], in order, for some [n]: it never inserts a row twice,
    out of order, or after a pair it has skipped. *)
Theorem inserted_rows_are_the_first_pairs
        (client_id blob_sas_url doc_name form_type : PyVal)
        (extracted_values : list dict) (access_id : PyVal) (w : World) :
  exists n,
    n <= length (concat extracted_values) /\
    inserted_rows
      (trace (fst (update_database client_id blob_sas_url doc_name form_type
                                   extracted_values access_id w)))
    = (inserted_rows (trace w)
       ++ firstn n
            (map (claimed_row client_id blob_sas_url doc_name form_type
                              access_id)
                 (concat extracted_values)))%list.
Proof.
  destruct (update_database_trace client_id blob_sas_url doc_name form_type
                                  extracted_values access_id w)
    as (done & rows & rest & tail & db & Hsplit & Hrows & _ & Hend & -> & _).
  rewrite Hsplit.
  destruct Hend as [|kv rest e Hrow|kv rest row db' e Hrow Hpost].
  - exists (length done). split; [rewrite length_app; lia|].
    rewrite inserted_rows_app. f_equal. simpl.
    rewrite inserted_rows_app, inserted_rows_ok_events, Hrows. simpl.
    rewrite app_nil_r, firstn_map_app. reflexivity.
  - exists (length done). split; [rewrite length_app; lia|].
    rewrite inserted_rows_app. f_equal. simpl.
    rewrite inserted_rows_app, inserted_rows_ok_events, Hrows. simpl.
    rewrite app_nil_r, firstn_map_app. reflexivity.
  - exists (length (done ++ [kv])%list).
    split; [rewrite !length_app; simpl; lia|].
    rewrite inserted_rows_app. f_equal. simpl.
    rewrite inserted_rows_app, inserted_rows_ok_events, Hrows. simpl.
    apply insert_row_Ok in Hrow. destruct Hrow as (-> & _).
    replace (done ++ kv :: rest)%list with ((done ++ [kv]) ++ rest)%list
      by (rewrite <- app_assoc; reflexivity).
    rewrite firstn_map_app, map_app. reflexivity.
Qed.

(** X12. With no pair to insert ([extracted_values] empty, or holding empty
    dictionaries only) [update_database] still builds a [Database] and
    closes it: these are its only two actions, nothing is printed, and its
    outcome is that of closing the database as it was built. *)
Theorem update_database_without_fields
        (client_id blob_sas_url doc_name form_type : PyVal)
        (extracted_values : list dict) (access_id : PyVal) (w : World) :
  concat extracted_values = [] ->
  trace (fst (update_database client_id blob_sas_url doc_name form_type
                              extracted_values access_id w))
  = (trace w
     ++ [NewDatabase client_id blob_sas_url;
         Close (snd (close (Database client_id blob_sas_url)))])%list /\
  snd (update_database client_id blob_sas_url doc_name form_type
                       extracted_values access_id w)
  = snd (close (Database client_id blob_sas_url)).
Proof.
  intros Hempty.
  unfold update_database, update_database_body, try_finally, try_except.
  rewrite for_each_concat, Hempty. simpl for_each. unfold mret, await_close.
  simpl. destruct (close (Database client_id blob_sas_url)) as [db' [[]|e]];
    simpl; rewrite <- app_assoc; split; reflexivity.
Qed.

End DatabaseRuns.

Section ExtractRuns.

Variable generate_blob_sas : SasRequest -> string.
Variable begin_analyze_document :
  DocumentIntelligenceClient -> string -> string -> result PyVal.
Variable extractor_model_mapping : list (string * string).

Set Default Proof Using "Type".

Local Abbreviation sas_url := (sas_url generate_blob_sas).
Local Abbreviation analysis :=
  (analysis generate_blob_sas begin_analyze_document extractor_model_mapping).
Local Abbreviation extract :=
  (extract generate_blob_sas begin_analyze_document extractor_model_mapping).

(** ** Runs of [extract] *)

Lemma blob_sas_url_eq (a c l t : string) :
  "https://" ++ a ++ ".blob.core.windows.net/" ++ c ++ "/" ++ l ++ "?" ++ t
  = ("https://" ++ a ++ ".blob.core.windows.net/" ++ c ++ "/" ++ l)
    ++ "?" ++ t.
Proof. rewrite !append_assoc. reflexivity. Qed.

(** A whole call: the two requests it makes, and what it returns. *)
Lemma extract_run client_id blob_name form_type w :
  extract client_id blob_name form_type w
  = (emits [GenerateSas (sas_request w (client_id ++ "/" ++ blob_name));
            Analyze (get_document_intelligence_client (azure_credentials w)
                                                      form_type)
                    (mapping_get extractor_model_mapping form_type "unsorted")
                    (sas_url client_id blob_name w)] w,
     match analysis client_id blob_name form_type w with
     | Raise e => Raise e
     | Ok result =>
         match extract_documents result with
         | Raise e => Raise e
         | Ok response_list =>
             Ok (response_list,
                 blob_url (account_name (blob_service_client (self w)))
                          (container_name (blob_container_client (self w)))
                          client_id blob_name)
         end
     end).
Proof.
  unfold extract, analysis, sas_url, blob_url. simpl self.
  rewrite blob_sas_url_eq.
  destruct (begin_analyze_document _ _ _) as [result|e]; [|reflexivity].
  destruct (extract_documents result) as [response_list|e]; reflexivity.
Qed.

Lemma append_documents_run (l : list PyVal) :
  forall start acc r,
    foldM append_document (combine (seq start (length l)) l) acc = Ok r ->
    exists ds,
      r = (acc ++ ds)%list /\
      Forall2 (fun document d => extract_document document = Ok d) l ds.
Proof.
  induction l as [|document l IH]; intros start acc r H.
  - simpl in H. inversion H; subst. exists []. rewrite app_nil_r.
    split; [reflexivity | constructor].
  - simpl in H. apply bind_Ok in H. destruct H as (acc1 & H1 & H).
    unfold append_document in H1.
    apply bind_Ok in H1. destruct H1 as (d & Hd & H1). inversion H1; subst acc1.
    apply IH in H. destruct H as (ds & -> & Hall).
    exists (d :: ds). rewrite <- app_assoc. split; [reflexivity|].
    constructor; assumption.
Qed.

Lemma extract_documents_Ok result response_list :
  extract_documents result = Ok response_list ->
  Forall2 (fun document d => extract_document document = Ok d)
          (analysis_documents result) response_list.
Proof.
  unfold extract_documents, analysis_documents. intros H.
  apply bind_Ok in H. destruct H as (documents & -> & H).
  apply bind_Ok in H. destruct H as (docs & -> & H).
  apply append_documents_run in H. destruct H as (ds & -> & Hall).
  exact Hall.
Qed.

Lemma extract_documents_total result docs :
  getattr result "documents" = Ok (PList docs) ->
  forallb typed_document docs = true ->
  exists response_list, extract_documents result = Ok response_list.
Proof.
  intros Hdocs Hall. unfold extract_documents. rewrite Hdocs. simpl.
  apply foldM_total. intros acc [idx document] Hin.
  unfold append_document.
  destruct (typed_document_Ok document) as (d & ->).
  - eapply forallb_In; [exact Hall|]. eapply In_enumerate_In; exact Hin.
  - simpl. eexists; reflexivity.
Qed.

Lemma has_char_append c (a b : string) :
  has_char c (a ++ b) = has_char c a || has_char c b.
Proof.
  induction a as [|x a IH]; simpl; [reflexivity|].
  rewrite IH. apply orb_assoc.
Qed.

(** ** The properties of [extract] *)

(** C5. Every call to [extract] asks for one SAS token, before the analysis
    request and whatever that request answers: for the blob
    [<client_id>/<blob_name>] of the instance's account and container, with
    the read permission and no other, and expiring exactly one hour after
    the reading of the UTC clock taken for the call. *)
Theorem extract_generates_read_only_one_hour_sas
        (client_id blob_name form_type : string) (w : World) :
  exists request client model_id,
    trace (fst (extract client_id blob_name form_type w))
    = (trace w
       ++ [GenerateSas request;
           Analyze client model_id
                   (blob_url (account_name (blob_service_client (self w)))
                             (container_name (blob_container_client (self w)))
                             client_id blob_name
                    ++ "?" ++ generate_blob_sas request)])%list /\
    sas_account_name request = account_name (blob_service_client (self w)) /\
    sas_container_name request
    = container_name (blob_container_client (self w)) /\
    sas_blob_name request = client_id ++ "/" ++ blob_name /\
    sas_account_key request = KEY (azure_credentials w) /\
    sas_permission request
    = {| read := true; add := false; create := false; write := false;
         delete := false; delete_previous_version := false; tag := false |} /\
    sas_expiry request = (utcnow w + 60 * 60 * 1000000)%Z.
Proof.
  rewrite extract_run. cbn [fst]. rewrite trace_emits.
  eexists; eexists; eexists. split; [reflexivity|].
  repeat split.
Qed.

(** C6. When [extract] returns, the list it returns holds exactly one
    flattened dictionary per document of the analysis result, in the order
    of the documents; it returns whenever the service answers with
    documents typed as the SDK types them. *)
Theorem extract_one_dictionary_per_document
        (client_id blob_name form_type : string) (w : World) :
  (forall w' response_list doc_url,
      extract client_id blob_name form_type w
      = (w', Ok (response_list, doc_url)) ->
      exists result,
        analysis client_id blob_name form_type w = Ok result /\
        length response_list = length (analysis_documents result) /\
        Forall2 (fun document d => extract_document document = Ok d)
                (analysis_documents result) response_list) /\
  (forall result docs,
      analysis client_id blob_name form_type w = Ok result ->
      getattr result "documents" = Ok (PList docs) ->
      forallb typed_document docs = true ->
      exists response_list doc_url,
        snd (extract client_id blob_name form_type w)
        = Ok (response_list, doc_url) /\
        length response_list = length docs).
Proof.
  split.
  - intros w' response_list doc_url H. rewrite extract_run in H.
    destruct (analysis client_id blob_name form_type w) as [result|e];
      [|inversion H].
    destruct (extract_documents result) as [rl|e] eqn:Hdocs; [|inversion H].
    inversion H; subst. exists result. split; [reflexivity|].
    apply extract_documents_Ok in Hdocs. split; [|exact Hdocs].
    symmetry. eapply Forall2_length; exact Hdocs.
  - intros result docs Hres Hdocs Htyped. rewrite extract_run, Hres. cbn [snd].
    destruct (extract_documents_total _ _ Hdocs Htyped) as (rl & Hrl).
    rewrite Hrl. eexists; eexists. split; [reflexivity|].
    apply extract_documents_Ok in Hrl.
    unfold analysis_documents in Hrl. rewrite Hdocs in Hrl. simpl in Hrl.
    symmetry. eapply Forall2_length; exact Hrl.
Qed.

(** C10. The URL that [extract] returns is the blob URL without a query
    string: it is built from the account, the container, the client id and
    the blob name alone, so two runs on the same instance return the same
    URL whatever the account key (and the rest of the credentials, the
    clock and the history) are; it holds no [?] unless one of its four
    parts does; and the URL with the SAS token, which is the returned URL
    followed by [?] and the token, goes to the analysis request only. *)
Theorem doc_url_carries_no_sas_token
        (client_id blob_name form_type : string) (w1 w2 : World) :
  self w1 = self w2 ->
  forall w1' w2' response_list1 response_list2 doc_url1 doc_url2,
    extract client_id blob_name form_type w1
    = (w1', Ok (response_list1, doc_url1)) ->
    extract client_id blob_name form_type w2
    = (w2', Ok (response_list2, doc_url2)) ->
    doc_url1 = doc_url2 /\
    doc_url1 = blob_url (account_name (blob_service_client (self w1)))
                        (container_name (blob_container_client (self w1)))
                        client_id blob_name /\
    (has_char "?" (account_name (blob_service_client (self w1))) = false ->
     has_char "?" (container_name (blob_container_client (self w1))) = false ->
     has_char "?" client_id = false ->
     has_char "?" blob_name = false ->
     has_char "?" doc_url1 = false) /\
    exists request client model_id,
      trace w1'
      = (trace w1
         ++ [GenerateSas request;
             Analyze client model_id
                     (doc_url1 ++ "?" ++ generate_blob_sas request)])%list /\
      sas_account_key request = KEY (azure_credentials w1).
Proof.
  intros Hself w1' w2' rl1 rl2 u1 u2 H1 H2.
  rewrite extract_run in H1, H2.
  destruct (analysis client_id blob_name form_type w1) as [res1|e];
    [|inversion H1].
  destruct (extract_documents res1) as [l1|e]; [|inversion H1].
  destruct (analysis client_id blob_name form_type w2) as [res2|e];
    [|inversion H2].
  destruct (extract_documents res2) as [l2|e]; [|inversion H2].
  inversion H1; subst w1' rl1 u1. inversion H2; subst w2' rl2 u2.
  split; [rewrite Hself; reflexivity|]. split; [reflexivity|]. split.
  - intros Ha Hc Hid Hb. unfold blob_url.
    rewrite !has_char_append, Ha, Hc, Hid, Hb. reflexivity.
  - exists (sas_request w1 (client_id ++ "/" ++ blob_name)).
    eexists; eexists. split; [|reflexivity].
    simpl trace. rewrite <- app_assoc. reflexivity.
Qed.

(** ** More on [extract] *)

Lemma mapping_get_absent (m : list (string * string)) k default :
  ~ In k (map fst m) -> mapping_get m k default = default.
Proof.
  induction m as [|[k' v] m IH]; simpl; [reflexivity|].
  intros Hnot. destruct (String.eqb_spec k' k) as [->|Hne].
  - exfalso. apply Hnot. left; reflexivity.
  - apply IH. intros Hin. apply Hnot. right; exact Hin.
Qed.

Lemma mapping_get_present (m : list (string * string)) k v default :
  NoDup (map fst m) -> In (k, v) m -> mapping_get m k default = v.
Proof.
  induction m as [|[k' v'] m IH]; simpl; [intros _ []|].
  intros Hnodup Hin. inversion Hnodup as [|? ? Hfresh Hnodup']; subst.
  destruct (String.eqb_spec k' k) as [->|Hne].
  - destruct Hin as [E|Hin]; [congruence|].
    exfalso. apply Hfresh. apply (in_map fst) in Hin. exact Hin.
  - destruct Hin as [E|Hin]; [congruence|]. apply IH; assumption.
Qed.

(** X1. The analysis request of [extract] goes to the custom endpoint with
    the custom K-1 key exactly when [form_type] is ['K1-1065'], and to the
    prebuilt endpoint with the prebuilt key for every other form type (the
    two are never mixed); the model it names is the one that
    [extractor_model_mapping] gives for the form type, and ['unsorted'] for
    a form type that the mapping does not hold. *)
Theorem extract_routes_the_analysis_request
        (client_id blob_name form_type : string) (w : World) :
  exists request client model_id url_source,
    trace (fst (extract client_id blob_name form_type w))
    = (trace w ++ [GenerateSas request;
                   Analyze client model_id url_source])%list /\
    (form_type = "K1-1065" ->
     endpoint client = FORM_RECOGNIZER_ENDPOINT_CUSTOM (azure_credentials w) /\
     credential client = FORM_RECOGNIZER_KEY_CUSTOM_K1 (azure_credentials w)) /\
    (form_type <> "K1-1065" ->
     endpoint client
     = FORM_RECOGNIZER_ENDPOINT_PREBUILT (azure_credentials w) /\
     credential client = FORM_RECOGNIZER_KEY_PREBUILT (azure_credentials w)) /\
    (~ In form_type (map fst extractor_model_mapping) ->
     model_id = "unsorted") /\
    (forall model,
        NoDup (map fst extractor_model_mapping) ->
        In (form_type, model) extractor_model_mapping ->
        model_id = model).
Proof.
  rewrite extract_run. cbn [fst]. rewrite trace_emits.
  eexists; eexists; eexists; eexists. split; [reflexivity|].
  unfold get_document_intelligence_client.
  split; [|split; [|split]].
  - intros ->. simpl. auto.
  - intros Hne. destruct (String.eqb_spec form_type "K1-1065") as [E|_];
      [contradiction|]. simpl. auto.
  - apply mapping_get_absent.
  - intros model. apply mapping_get_present.
Qed.

(** X2. The blob is addressed by [<client_id>/<blob_name>] and by nothing
    else: a client id [a/b] with the blob name [c] and the client id [a]
    with the blob name [b/c] make the same call of [extract], with the same
    SAS request, the same analysis request and the same outcome. *)
Theorem extract_sees_only_the_blob_location
        (a b c form_type : string) (w : World) :
  extract (a ++ "/" ++ b) c form_type w
  = extract a (b ++ "/" ++ c) form_type w.
Proof.
  rewrite !extract_run. unfold analysis, sas_url, blob_url.
  rewrite !append_assoc. reflexivity.
Qed.

Lemma append_inv_head (a x y : string) : a ++ x = a ++ y -> x = y.
Proof.
  induction a as [|ch a IH]; simpl; [auto|].
  intros H. inversion H. auto.
Qed.

Lemma blob_location_split (a1 b1 a2 b2 : string) :
  has_char "/" a1 = false -> has_char "/" a2 = false ->
  a1 ++ "/" ++ b1 = a2 ++ "/" ++ b2 -> a1 = a2 /\ b1 = b2.
Proof.
  revert a2. induction a1 as [|ch a1 IH]; intros a2 H1 H2 H.
  - destruct a2 as [|ch2 a2]; simpl in *.
    + inversion H. auto.
    + inversion H; subst ch2. simpl in H2. discriminate.
  - destruct a2 as [|ch2 a2]; simpl in *.
    + inversion H; subst ch. simpl in H1. discriminate.
    + inversion H; subst ch2.
      apply orb_false_iff in H1. apply orb_false_iff in H2.
      destruct (IH a2 (proj2 H1) (proj2 H2)) as [-> ->]; [assumption|].
      auto.
Qed.

(** X3. For client ids that hold no slash, the URL that [extract] returns
    tells the client id and the blob name: two calls on instances with the
    same account and container that return the same URL were made for the
    same client id and the same blob name. *)
Theorem doc_url_tells_client_and_blob
        (client_id1 blob_name1 form_type1 client_id2 blob_name2 form_type2
         : string)
        (w1 w2 w1' w2' : World) (response_list1 response_list2 : list dict)
        (doc_url : string) :
  self w1 = self w2 ->
  has_char "/" client_id1 = false ->
  has_char "/" client_id2 = false ->
  extract client_id1 blob_name1 form_type1 w1
  = (w1', Ok (response_list1, doc_url)) ->
  extract client_id2 blob_name2 form_type2 w2
  = (w2', Ok (response_list2, doc_url)) ->
  client_id1 = client_id2 /\ blob_name1 = blob_name2.
Proof.
  intros Hself Hc1 Hc2 H1 H2. rewrite extract_run in H1, H2.
  destruct (analysis client_id1 blob_name1 form_type1 w1) as [r1|e];
    [|inversion H1].
  destruct (extract_documents r1) as [l1|e]; [|inversion H1].
  destruct (analysis client_id2 blob_name2 form_type2 w2) as [r2|e];
    [|inversion H2].
  destruct (extract_documents r2) as [l2|e]; [|inversion H2].
  inversion H1 as [[Hw1 Hl1 Hu1]]. inversion H2 as [[Hw2 Hl2 Hu2]].
  rewrite <- Hu2, Hself in Hu1. unfold blob_url in Hu1.
  repeat (apply append_inv_head in Hu1).
  apply blob_location_split; assumption.
Qed.

Lemma append_documents_raise (doc : PyVal) (post : list PyVal) e
      (pre : list PyVal) :
  Forall (fun d => exists x, extract_document d = Ok x) pre ->
  extract_document doc = Raise e ->
  forall start acc,
    foldM append_document
          (combine (seq start (length (pre ++ doc :: post)%list))
                   (pre ++ doc :: post)%list) acc
    = Raise e.
Proof.
  intros Hpre Hdoc. induction Hpre as [|d pre (x & Hd) _ IH];
    intros start acc; simpl.
  - unfold append_document at 1. rewrite Hdoc. reflexivity.
  - unfold append_document at 1. rewrite Hd. simpl. apply IH.
Qed.

(** X6. [extract] has no handler of its own: it raises what the analysis
    raises, and it raises what the first document that cannot be flattened
    raises, whatever the documents before and after it hold; in both cases
    no list and no URL come back. *)
Theorem extract_raises_what_fails
        (client_id blob_name form_type : string) (w : World) :
  (forall e,
      analysis client_id blob_name form_type w = Raise e ->
      snd (extract client_id blob_name form_type w) = Raise e) /\
  (forall result documents before document after e,
      analysis client_id blob_name form_type w = Ok result ->
      getattr result "documents" = Ok documents ->
      iter documents = Ok (before ++ document :: after)%list ->
      Forall (fun d => exists x, extract_document d = Ok x) before ->
      extract_document document = Raise e ->
      snd (extract client_id blob_name form_type w) = Raise e).
Proof.
  split.
  - intros e He. rewrite extract_run, He. reflexivity.
  - intros result documents before document after e Hres Hdocs Hiter Hpre Hdoc.
    rewrite extract_run, Hres. cbn [snd].
    unfold extract_documents. rewrite Hdocs. simpl bind. rewrite Hiter.
    simpl bind. unfold enumerate.
    rewrite (append_documents_raise _ _ _ _ Hpre Hdoc). reflexivity.
Qed.

(** X7. An analysis result without [documents] makes [extract] raise
    [TypeError] (its loop iterates over [None]); one with an empty list of
    documents makes it return the empty list with the URL of the blob. *)
Theorem extract_without_documents
        (client_id blob_name form_type : string) (w : World) :
  (forall o,
      analysis client_id blob_name form_type w = Ok (PObj o) ->
      lookup "documents" o = None ->
      exists what,
        snd (extract client_id blob_name form_type w)
        = Raise (TypeError what)) /\
  (forall o,
      analysis client_id blob_name form_type w = Ok (PObj o) ->
      lookup "documents" o = Some (PList []) ->
      snd (extract client_id blob_name form_type w)
      = Ok ([], blob_url (account_name (blob_service_client (self w)))
                         (container_name (blob_container_client (self w)))
                         client_id blob_name)).
Proof.
  split; intros o Hres Hdocs; rewrite extract_run, Hres; cbn [snd];
    unfold extract_documents, getattr; rewrite Hdocs; simpl.
  - eexists; reflexivity.
  - reflexivity.
Qed.

Lemma extract_returns_records client_id blob_name form_type w w'
      response_list doc_url :
  extract client_id blob_name form_type w = (w', Ok (response_list, doc_url)) ->
  forall kv, In kv (concat response_list) ->
             exists value confidence, snd kv = record value confidence.
Proof.
  intros H kv Hin. rewrite extract_run in H.
  destruct (analysis client_id blob_name form_type w) as [result|e];
    [|inversion H].
  destruct (extract_documents result) as [rl|e] eqn:Hdocs; [|inversion H].
  inversion H; subst. apply extract_documents_Ok in Hdocs.
  apply in_concat in Hin. destruct Hin as (d & Hd & Hin).
  destruct (Forall2_In_r _ _ _ _ Hdocs Hd) as (document & _ & Hdoc).
  eapply extract_document_records; eassumption.
Qed.

End ExtractRuns.

(** ** The instance *)

Section InstanceFrame.

Variable DB : Type.
Variable Database : PyVal -> PyVal -> DB.
Variable post2postgres_extract : Row -> DB -> DB * result PyVal.
Variable close : DB -> DB * result unit.
Variable str : PyVal -> string.
Variable str_exc : PyExc -> string.
Variable json_dumps : PyVal -> result string.
Variable generate_blob_sas : SasRequest -> string.
Variable begin_analyze_document :
  DocumentIntelligenceClient -> string -> string -> result PyVal.
Variable extractor_model_mapping : list (string * string).

Set Default Proof Using "Type".

Local Abbreviation update_database :=
  (update_database DB Database post2postgres_extract close str str_exc
                   json_dumps).
Local Abbreviation extract :=
  (extract generate_blob_sas begin_analyze_document extractor_model_mapping).

(** C7. Neither method writes to the instance: after [extract] and after
    [update_database], returning or raising, [self] holds the
    [blob_service_client] and the [blob_container_client] that it held
    before the call, and nothing else. *)
Theorem methods_leave_the_instance_unchanged
        (client_id blob_name form_type : string)
        (client_id' blob_sas_url doc_name form_type' : PyVal)
        (extracted_values : list dict) (access_id : PyVal) (w : World) :
  self (fst (extract client_id blob_name form_type w)) = self w /\
  self (fst (update_database client_id' blob_sas_url doc_name form_type'
                             extracted_values access_id w)) = self w.
Proof.
  split.
  - rewrite extract_run. cbn [fst]. apply self_emits.
  - apply update_database_leaves_self.
Qed.

(** X8. What [extract] returns can always be given to [update_database]:
    every value of every dictionary is a record with ['value'] and
    ['confidence'], so lines 29-30 never raise on it, and with a store that
    takes every row each key of each dictionary is inserted once, in order,
    with the [str()] of its value and with its confidence. *)
Theorem extracted_values_are_insertable
        (client_id blob_name form_type : string) (w w' : World)
        (response_list : list dict) (doc_url : string) :
  extract client_id blob_name form_type w
  = (w', Ok (response_list, doc_url)) ->
  (forall row db, exists id, snd (post2postgres_extract row db) = Ok id) ->
  (forall kv, In kv (concat response_list) ->
     exists value conf,
       snd kv = record value conf /\
       forall client_id' blob_sas_url doc_name form_type' access_id,
         field_value (claimed_row str client_id' blob_sas_url doc_name
                                  form_type' access_id kv)
         = PStr (str value) /\
         confidence (claimed_row str client_id' blob_sas_url doc_name
                                 form_type' access_id kv)
         = conf) /\
  forall client_id' blob_sas_url doc_name form_type' access_id w2,
    inserted_rows
      (trace (fst (update_database client_id' blob_sas_url doc_name
                                   form_type' response_list access_id w2)))
    = (inserted_rows (trace w2)
       ++ map (claimed_row str client_id' blob_sas_url doc_name form_type'
                           access_id)
              (concat response_list))%list.
Proof.
  intros Hrun Hstore.
  pose proof (extract_returns_records _ _ _ _ _ _ _ _ _ _ Hrun) as Hrecords.
  split.
  - intros kv Hin. destruct (Hrecords kv Hin) as (value & conf & Hkv).
    exists value, conf. split; [exact Hkv|].
    intros. unfold claimed_row. rewrite Hkv. simpl. auto.
  - intros client_id' blob_sas_url doc_name form_type' access_id w2.
    destruct (never_raising_store_run
                DB Database post2postgres_extract close str str_exc json_dumps
                client_id' blob_sas_url doc_name form_type' response_list
                access_id w2 Hstore)
      as (done & rows & rest & tail & Hsplit & _ & Hrows & Hend & ->).
    rewrite inserted_rows_app. f_equal. simpl.
    rewrite inserted_rows_app, inserted_rows_ok_events, Hrows, Hsplit.
    destruct Hend as [(-> & ->)|(kv & rest' & key & -> & Hk & _ & ->)].
    + simpl. rewrite !app_nil_r. reflexivity.
    + exfalso. destruct (Hrecords kv) as (value & conf & Hkv).
      * rewrite Hsplit. apply in_or_app. right; left; reflexivity.
      * unfold keyed in Hk. rewrite Hkv in Hk. discriminate.
Qed.

End InstanceFrame.

(** ** The methods at work on the sample world *)

Example extract_sample_keys :
  match extract_document Sample.document with
  | Ok d => keys d
  | Raise _ => []
  end
  = ["Employee_Name"; "Employee_Address_house_number"; "Employee_Address_road";
     "Employee_Address_city"; "Employee_Address_state";
     "Employee_Address_postal_code"; "StateTaxInfos_1_State";
     "WagesTipsAndOtherCompensation"].
Proof. reflexivity. Qed.

Example extract_sample_url :
  snd (extract Sample.generate_blob_sas Sample.begin_analyze_document
               Sample.extractor_model_mapping "c1" "w2.pdf" "W2" Sample.world)
  = match extract_document Sample.document with
    | Ok d =>
        Ok ([d; d], "https://taxterm.blob.core.windows.net/uploads/c1/w2.pdf")
    | Raise e => Raise e
    end.
Proof. reflexivity. Qed.

Example person_without_valueObject_raises :
  extract_document (PObj [("fields", PDict [("Employee", PObj [])])])
  = Raise (AttributeError "items").
Proof. reflexivity. Qed.


(** C2, as stated, fails on the sample dictionaries: the insert of the
    second field raises, and the third field and the second dictionary are
    never inserted. *)
Lemma update_database_abandons_remaining_fields :
  map fst (concat Sample.extracted_values)
  = ["Employee_Name"; "Rejected"; "Employer_Name"; "Payer_Name"] /\
  trace (fst (update_database Sample.DB Sample.Database
                Sample.post2postgres_extract Sample.close Sample.str
                Sample.str_exc Sample.json_dumps
                (PStr "c1") (PStr "https://u") (PStr "w2.pdf") (PStr "W2")
                Sample.extracted_values (PNum (Qmake 7 1)) Sample.world))
  = Sample.failed_events /\
  map field_name (inserted_rows Sample.failed_events)
  = ["Employee_Name"; "Rejected"] /\
  Sample.post2postgres_extract (Sample.row "Employer_Name" "Acme") []
  = ([Sample.row "Employer_Name" "Acme"], Ok (PNum (Qmake 1 1))).
Proof. repeat split. Qed.

(** C2, as the code has it, at the sample dictionaries. *)
Lemma update_database_stops_at_failed_insert_witness :
  exists done kv rest rows,
    concat Sample.extracted_values = (done ++ kv :: rest)%list /\
    Sample.row "Rejected" "x"
    = claimed_row Sample.str (PStr "c1") (PStr "https://u") (PStr "w2.pdf")
                  (PStr "W2") (PNum (Qmake 7 1)) kv /\
    Sample.failed_events
    = (NewDatabase (PStr "c1") (PStr "https://u")
       :: flat_map (ok_events Sample.str) rows
       ++ [Insert (Sample.row "Rejected" "x")
                  (Raise (ServiceError "insert refused"));
           Print (error_line Sample.str_exc (fst kv)
                             (ServiceError "insert refused"));
           Close (snd (update_database Sample.DB Sample.Database
                         Sample.post2postgres_extract Sample.close Sample.str
                         Sample.str_exc Sample.json_dumps
                         (PStr "c1") (PStr "https://u") (PStr "w2.pdf")
                         (PStr "W2") Sample.extracted_values
                         (PNum (Qmake 7 1)) Sample.world))])%list /\
    inserted_rows Sample.failed_events
    = map (claimed_row Sample.str (PStr "c1") (PStr "https://u")
                       (PStr "w2.pdf") (PStr "W2") (PNum (Qmake 7 1)))
          (done ++ [kv])%list.
Proof.
  apply (update_database_stops_at_failed_insert
           Sample.DB Sample.Database Sample.post2postgres_extract Sample.close
           Sample.str Sample.str_exc Sample.json_dumps
           (PStr "c1") (PStr "https://u") (PStr "w2.pdf") (PStr "W2")
           Sample.extracted_values (PNum (Qmake 7 1)) Sample.world
           Sample.failed_events (Sample.row "Rejected" "x")
           (ServiceError "insert refused")).
  - reflexivity.
  - simpl. right; right; right; left. reflexivity.
Defined.

(** C3, as stated, fails on a dictionary whose first record lacks the key
    ['value']: no insert raises, there are two pairs, and nothing is
    inserted, because [field_data['value']] raises [KeyError] inside the
    [try]. *)
Lemma update_database_inserts_nothing_after_missing_key :
  (forall row db, exists id, snd (Sample.post_any row db) = Ok id) /\
  map fst (concat Sample.keyless_values) = ["Box1"; "Box2"] /\
  trace (fst (update_database Sample.DB Sample.Database Sample.post_any
                Sample.close Sample.str Sample.str_exc Sample.json_dumps
                (PStr "c1") (PStr "https://u") (PStr "w2.pdf") (PStr "W2")
                Sample.keyless_values (PNum (Qmake 7 1)) Sample.world))
  = [NewDatabase (PStr "c1") (PStr "https://u");
     Print "An error occurred while inserting field 'Box1': 'value'";
     Close (Ok tt)].
Proof.
  split; [intros row db; eexists; reflexivity|].
  split; reflexivity.
Qed.

(** C3, with the keys present, at two dictionaries that the store takes
    whole. *)
Lemma update_database_inserts_each_field_once_witness :
  inserted_rows
    (trace (fst (update_database Sample.DB Sample.Database Sample.post_any
                   Sample.close Sample.str Sample.str_exc Sample.json_dumps
                   (PStr "c1") (PStr "https://u") (PStr "w2.pdf") (PStr "W2")
                   Sample.plain_values (PNum (Qmake 7 1)) Sample.world)))
  = (inserted_rows (trace Sample.world)
     ++ map (claimed_row Sample.str (PStr "c1") (PStr "https://u")
                         (PStr "w2.pdf") (PStr "W2") (PNum (Qmake 7 1)))
            (concat Sample.plain_values))%list.
Proof.
  apply (update_database_inserts_each_field_once
           Sample.DB Sample.Database Sample.post_any Sample.close
           Sample.str Sample.str_exc Sample.json_dumps).
  - intros row db. eexists. reflexivity.
  - intros kv Hin. simpl in Hin.
    destruct Hin as [<-|[<-|[<-|[]]]]; reflexivity.
Defined.

(** C6 at the sample analysis result, which holds two documents. *)
Lemma extract_one_dictionary_per_document_witness :
  exists response_list doc_url,
    snd (extract Sample.generate_blob_sas Sample.begin_analyze_document
                 Sample.extractor_model_mapping "c1" "w2.pdf" "W2"
                 Sample.world)
    = Ok (response_list, doc_url) /\
    length response_list = 2.
Proof.
  destruct (extract_one_dictionary_per_document
              Sample.generate_blob_sas Sample.begin_analyze_document
              Sample.extractor_model_mapping "c1" "w2.pdf" "W2" Sample.world)
    as [_ Htotal].
  apply (Htotal Sample.analyze_result [Sample.document; Sample.document]);
    reflexivity.
Defined.

(** C8 at three fields: a [valueString] that is kept, an empty
    [valueString] before a [valueNumber] of 7, and an empty [valueString]
    before a [valueNumber] of 0 with no [value]. *)
Lemma value_chain_skips_falsy_witness :
  extract_field_info (Sample.field_of (PStr "Ann Lee") (Qmake 9 10)) "Name"
  = Ok [("Name", PDict [("value", PStr "Ann Lee");
                        ("confidence", PNum (Qmake 9 10))])] /\
  extract_field_info Sample.seven_field "Box1"
  = Ok [("Box1", PDict [("value", PNum (Qmake 7 1));
                        ("confidence", PNum (Qmake 5 10))])] /\
  extract_field_info Sample.falsy_field "Box1"
  = Ok [("Box1", PDict [("value", PNone);
                        ("confidence", PNum (Qmake 5 10))])].
Proof.
  split; [|split].
  - destruct (value_chain_skips_falsy
                (Sample.field_of (PStr "Ann Lee") (Qmake 9 10))
                (PStr "Ann Lee") PNone PNone (PNum (Qmake 9 10))
                eq_refl eq_refl eq_refl eq_refl) as (Hkept & _).
    apply (Hkept "Ann Lee" eq_refl). discriminate.
  - destruct (value_chain_skips_falsy
                Sample.seven_field (PStr EmptyString) (PNum (Qmake 7 1)) PNone
                (PNum (Qmake 5 10)) eq_refl eq_refl eq_refl eq_refl)
      as (_ & Hnumber & _).
    apply (Hnumber (or_intror eq_refl) (Qmake 7 1) eq_refl). discriminate.
  - destruct (value_chain_skips_falsy
                Sample.falsy_field (PStr EmptyString) (PNum (Qmake 0 1)) PNone
                (PNum (Qmake 5 10)) eq_refl eq_refl eq_refl eq_refl)
      as (_ & _ & Hvalue & _).
    apply (Hvalue (or_intror eq_refl)).
    right. exists (Qmake 0 1). split; reflexivity.
Defined.

(** C9 at the sample dictionaries. *)
Lemma field_value_is_always_a_str_witness :
  exists kv,
    In kv (concat Sample.extracted_values) /\
    field_name (Sample.row "Rejected" "x") = fst kv /\
    field_value (Sample.row "Rejected" "x")
    = PStr (Sample.str (claimed_value (snd kv))).
Proof.
  destruct (field_value_is_always_a_str
              Sample.DB Sample.Database Sample.post2postgres_extract
              Sample.close Sample.str Sample.str_exc Sample.json_dumps
              (PStr "c1") (PStr "https://u") (PStr "w2.pdf") (PStr "W2")
              Sample.extracted_values (PNum (Qmake 7 1)) Sample.world)
    as [_ Hrows].
  apply (Hrows Sample.failed_events (Sample.row "Rejected" "x")
               (Raise (ServiceError "insert refused"))).
  - reflexivity.
  - simpl. right; right; right; left. reflexivity.
Defined.

(** C10 at two worlds that differ in the account key: both runs return,
    and return the same URL. *)
Lemma doc_url_carries_no_sas_token_witness :
  KEY (azure_credentials Sample.world)
  <> KEY (azure_credentials Sample.world_rekeyed) /\
  match
    snd (extract Sample.generate_blob_sas Sample.begin_analyze_document
                 Sample.extractor_model_mapping "c1" "w2.pdf" "W2"
                 Sample.world),
    snd (extract Sample.generate_blob_sas Sample.begin_analyze_document
                 Sample.extractor_model_mapping "c1" "w2.pdf" "W2"
                 Sample.world_rekeyed)
  with
  | Ok (_, doc_url1), Ok (_, doc_url2) => doc_url1 = doc_url2
  | _, _ => False
  end.
Proof.
  split; [discriminate|].
  destruct (extract Sample.generate_blob_sas Sample.begin_analyze_document
                    Sample.extractor_model_mapping "c1" "w2.pdf" "W2"
                    Sample.world) as [w1' [[rl1 u1]|e1]] eqn:H1;
    [|vm_compute in H1; discriminate].
  destruct (extract Sample.generate_blob_sas Sample.begin_analyze_document
                    Sample.extractor_model_mapping "c1" "w2.pdf" "W2"
                    Sample.world_rekeyed) as [w2' [[rl2 u2]|e2]] eqn:H2;
    [|vm_compute in H2; discriminate].
  cbn [snd].
  exact (proj1 (doc_url_carries_no_sas_token
                  Sample.generate_blob_sas Sample.begin_analyze_document
                  Sample.extractor_model_mapping "c1" "w2.pdf" "W2"
                  Sample.world Sample.world_rekeyed eq_refl
                  w1' w2' rl1 rl2 u1 u2 H1 H2)).
Defined.

(** X3 at two calls for the same blob and different form types. *)
Lemma doc_url_tells_client_and_blob_witness :
  "c1" = "c1" /\ "w2.pdf" = "w2.pdf".
Proof.
  destruct (extract Sample.generate_blob_sas Sample.begin_analyze_document
                    Sample.extractor_model_mapping "c1" "w2.pdf" "W2"
                    Sample.world) as [w1' [[rl1 u1]|e1]] eqn:H1;
    [|vm_compute in H1; discriminate].
  destruct (extract Sample.generate_blob_sas Sample.begin_analyze_document
                    Sample.extractor_model_mapping "c1" "w2.pdf" "K1-1065"
                    Sample.world_rekeyed) as [w2' [[rl2 u2]|e2]] eqn:H2;
    [|vm_compute in H2; discriminate].
  assert (Hu : u2 = u1).
  { vm_compute in H1, H2. inversion H1. inversion H2. reflexivity. }
  subst u2.
  exact (doc_url_tells_client_and_blob
           Sample.generate_blob_sas Sample.begin_analyze_document
           Sample.extractor_model_mapping "c1" "w2.pdf" "W2" "c1" "w2.pdf"
           "K1-1065" Sample.world Sample.world_rekeyed w1' w2' rl1 rl2 u1
           eq_refl eq_refl eq_refl H1 H2).
Defined.

(** X4 at an address that holds two of the five components. *)
Lemma address_gives_five_entries_witness :
  exists o confidence,
    get Sample.address_sub_field "valueAddress" = Ok (PObj o) /\
    getattr Sample.address_sub_field "confidence" = Ok confidence /\
    Sample.address_entries
    = update []
        (map (fun name =>
                ("Employee" ++ "_Address_" ++ name,
                 record (match lookup name o with
                         | Some v => v
                         | None => PNone
                         end) confidence))
             address_component_names).
Proof.
  apply (address_gives_five_entries "Employee" [] Sample.address_sub_field
                                    Sample.address_entries).
  reflexivity.
Defined.

(** X5 at an array whose only item holds no [valueObject]. *)
Lemma array_without_value_objects_adds_nothing_witness :
  document_field Sample.plain_flat ("StateTaxInfos", Sample.hollow_array_field)
  = Ok Sample.plain_flat.
Proof.
  apply (array_without_value_objects_adds_nothing
           Sample.plain_flat "StateTaxInfos" Sample.hollow_array_field
           (PList [PObj [("confidence", PNum (Qmake 1 2))]])
           [PObj [("confidence", PNum (Qmake 1 2))]]);
    try reflexivity.
  constructor; [reflexivity | constructor].
Defined.

(** X8 at the sample world and a store that takes every row. *)
Lemma extracted_values_are_insertable_witness :
  match
    snd (extract Sample.generate_blob_sas Sample.begin_analyze_document
                 Sample.extractor_model_mapping "c1" "w2.pdf" "W2"
                 Sample.world)
  with
  | Ok (response_list, _) =>
      inserted_rows
        (trace (fst (update_database
                       Sample.DB Sample.Database Sample.post_any Sample.close
                       Sample.str Sample.str_exc Sample.json_dumps
                       (PStr "c1") (PStr "https://u") (PStr "w2.pdf")
                       (PStr "W2") response_list (PNum (Qmake 7 1))
                       Sample.world)))
      = map (claimed_row Sample.str (PStr "c1") (PStr "https://u")
                         (PStr "w2.pdf") (PStr "W2") (PNum (Qmake 7 1)))
            (concat response_list)
  | Raise _ => False
  end.
Proof.
  destruct (extract Sample.generate_blob_sas Sample.begin_analyze_document
                    Sample.extractor_model_mapping "c1" "w2.pdf" "W2"
                    Sample.world) as [w' [[rl u]|e]] eqn:Hrun;
    [|vm_compute in Hrun; discriminate].
  cbn [snd].
  assert (Hstore : forall row db,
             exists id, snd (Sample.post_any row db) = Ok id)
    by (intros row db; eexists; reflexivity).
  exact (proj2 (extracted_values_are_insertable
                  Sample.DB Sample.Database Sample.post_any Sample.close
                  Sample.str Sample.str_exc Sample.json_dumps
                  Sample.generate_blob_sas Sample.begin_analyze_document
                  Sample.extractor_model_mapping "c1" "w2.pdf" "W2"
                  Sample.world w' rl u Hrun Hstore)
               (PStr "c1") (PStr "https://u") (PStr "w2.pdf") (PStr "W2")
               (PNum (Qmake 7 1)) Sample.world).
Defined.

(** X9 at a dictionary whose second record lacks ['value']: only the first
    field is inserted. *)
Lemma update_database_inserts_until_missing_key_witness :
  inserted_rows
    (trace (fst (update_database
                   Sample.DB Sample.Database Sample.post_any Sample.close
                   Sample.str Sample.str_exc Sample.json_dumps
                   (PStr "c1") (PStr "https://u") (PStr "w2.pdf") (PStr "W2")
                   Sample.half_keyed_values (PNum (Qmake 7 1)) Sample.world)))
  = [Sample.row "Box0" "1"].
Proof.
  assert (Hstore : forall row db,
             exists id, snd (Sample.post_any row db) = Ok id)
    by (intros row db; eexists; reflexivity).
  exact (update_database_inserts_until_missing_key
           Sample.DB Sample.Database Sample.post_any Sample.close
           Sample.str Sample.str_exc Sample.json_dumps
           (PStr "c1") (PStr "https://u") (PStr "w2.pdf") (PStr "W2")
           Sample.half_keyed_values (PNum (Qmake 7 1)) Sample.world Hstore).
Defined.

(** X10 at the same dictionary: the field [Box1] is reported. *)
Lemma missing_key_is_reported_as_failed_insert_witness :
  exists rows key,
    (key = "value" \/ key = "confidence") /\
    map fst rows
    = map (claimed_row Sample.str (PStr "c1") (PStr "https://u")
                       (PStr "w2.pdf") (PStr "W2") (PNum (Qmake 7 1)))
          [("Box0", Sample.entry "1")] /\
    trace (fst (update_database
                  Sample.DB Sample.Database Sample.post_any Sample.close
                  Sample.str Sample.str_exc Sample.json_dumps
                  (PStr "c1") (PStr "https://u") (PStr "w2.pdf") (PStr "W2")
                  Sample.half_keyed_values (PNum (Qmake 7 1)) Sample.world))
    = (trace Sample.world
       ++ NewDatabase (PStr "c1") (PStr "https://u")
          :: flat_map (ok_events Sample.str) rows
          ++ [Print (error_line Sample.str_exc "Box1" (KeyError key));
              Close (snd (update_database
                            Sample.DB Sample.Database Sample.post_any
                            Sample.close Sample.str Sample.str_exc
                            Sample.json_dumps
                            (PStr "c1") (PStr "https://u") (PStr "w2.pdf")
                            (PStr "W2") Sample.half_keyed_values
                            (PNum (Qmake 7 1)) Sample.world))])%list.
Proof.
  apply (missing_key_is_reported_as_failed_insert
           Sample.DB Sample.Database Sample.post_any Sample.close
           Sample.str Sample.str_exc Sample.json_dumps
           (PStr "c1") (PStr "https://u") (PStr "w2.pdf") (PStr "W2")
           Sample.half_keyed_values (PNum (Qmake 7 1)) Sample.world
           [("Box0", Sample.entry "1")] ("Box1", PDict [])
           [("Box2", Sample.entry "7")]).
  - intros row db. eexists. reflexivity.
  - reflexivity.
  - constructor; [reflexivity | constructor].
  - reflexivity.
Defined.

(** X12 at two empty dictionaries. *)
Lemma update_database_without_fields_witness :
  trace (fst (update_database
                Sample.DB Sample.Database Sample.post2postgres_extract
                Sample.close Sample.str Sample.str_exc Sample.json_dumps
                (PStr "c1") (PStr "https://u") (PStr "w2.pdf") (PStr "W2")
                [[]; []] (PNum (Qmake 7 1)) Sample.world))
  = [NewDatabase (PStr "c1") (PStr "https://u"); Close (Ok tt)].
Proof.
  exact (proj1 (update_database_without_fields
                  Sample.DB Sample.Database Sample.post2postgres_extract
                  Sample.close Sample.str Sample.str_exc Sample.json_dumps
                  (PStr "c1") (PStr "https://u") (PStr "w2.pdf") (PStr "W2")
                  [[]; []] (PNum (Qmake 7 1)) Sample.world eq_refl)).
Defined.

(** X13 at a field named [Box1] that comes after another [Box1]. *)
Lemma plain_field_overwrites_its_key_witness :
  exists value confidence,
    value_of (Sample.field_of (PStr "NV") (Qmake 7 10)) = Ok value /\
    get (Sample.field_of (PStr "NV") (Qmake 7 10)) "confidence"
    = Ok confidence /\
    lookup "Box1" Sample.overwritten_flat = Some (record value confidence) /\
    (forall k, k <> "Box1" ->
               lookup k Sample.overwritten_flat = lookup k Sample.plain_flat) /\
    (In "Box1" (keys Sample.plain_flat) ->
     keys Sample.overwritten_flat = keys Sample.plain_flat) /\
    (~ In "Box1" (keys Sample.plain_flat) ->
     keys Sample.overwritten_flat = (keys Sample.plain_flat ++ ["Box1"])%list).
Proof.
  apply (plain_field_overwrites_its_key
           Sample.plain_flat "Box1"
           (Sample.field_of (PStr "NV") (Qmake 7 10))
           Sample.overwritten_flat); reflexivity.
Defined.

(** X14 at a document with two plain fields. *)
Lemma plain_document_is_flattened_key_for_key_witness :
  keys Sample.plain_flat = keys (document_fields Sample.plain_document) /\
  forall field_name field,
    In (field_name, field) (document_fields Sample.plain_document) ->
    exists value confidence,
      value_of field = Ok value /\
      get field "confidence" = Ok confidence /\
      lookup field_name Sample.plain_flat = Some (record value confidence).
Proof.
  apply (plain_document_is_flattened_key_for_key
           Sample.plain_document Sample.plain_flat).
  - intros kv Hin. simpl in Hin.
    destruct Hin as [<-|[<-|[]]]; split; reflexivity.
  - simpl. constructor.
    + intros [H|[]]. discriminate.
    + constructor; [intros [] | constructor].
  - reflexivity.
Defined.


